(** * Course controller: a shallow embedding of
      [backend/controllers/courseController.js]

    The five request handlers ([addCourse], [updateCourse], [deleteCourse],
    [getAllCourses], [searchCourse]) are written as functions from a request
    and a course collection to a response and a course collection.  The
    JavaScript built-ins they call ([parseFloat], [parseInt], [isNaN], the
    relational operators, truthiness, [split], [trim], [join]) are modelled
    in [JS]; numbers are IEEE-754 binary64 values, as in JavaScript. *)

From Stdlib Require Import String Ascii List ZArith NArith Bool Arith Lia.
From Stdlib Require Import Floats.
Import ListNotations.

Local Open Scope string_scope.
Local Open Scope list_scope.

(* ================================================================== *)
(** * JavaScript strings and numbers *)
(* ================================================================== *)

Module JS.

(** ** Strings

    A string is held as the bytes of its UTF-8 encoding.  The handlers split
    at a comma, compare strings for equality and read signs and digits, which
    is the same on the bytes as on the characters. *)

(** The UTF-8 encoding of a code point below 65536. *)
Definition utf8 (code_point : N) : string :=
  let byte (n : N) := ascii_of_N n in
  if (code_point <? 128)%N then String (byte code_point) ""
  else if (code_point <? 2048)%N then
    String (byte (192 + code_point / 64)%N)
      (String (byte (128 + code_point mod 64)%N) "")
  else
    String (byte (224 + code_point / 4096)%N)
      (String (byte (128 + (code_point / 64) mod 64)%N)
         (String (byte (128 + code_point mod 64)%N) "")).

(** The ECMAScript [WhiteSpace] and [LineTerminator] characters, which
    [trim], [parseFloat], [parseInt] and [Number] strip: TAB, LF, VT, FF, CR,
    SPACE, U+00A0, U+1680, U+2000 to U+200A, U+2028, U+2029, U+202F, U+205F,
    U+3000 and U+FEFF. *)
Definition white_space_code_points : list N :=
  [9; 10; 11; 12; 13; 32; 160; 5760;
   8192; 8193; 8194; 8195; 8196; 8197; 8198; 8199; 8200; 8201; 8202;
   8232; 8233; 8239; 8287; 12288; 65279]%N.

Definition white_space : list string := map utf8 white_space_code_points.

(** What follows [w] in [s], when [s] starts with [w]. *)
Fixpoint after_prefix (w s : string) : option string :=
  match w, s with
  | EmptyString, _ => Some s
  | String a w', String b s' => if Ascii.eqb a b then after_prefix w' s' else None
  | String _ _, EmptyString => None
  end.

(** What follows the white space character [s] starts with, if it starts
    with one. *)
Definition skip_white_space (s : string) : option string :=
  fold_right (fun w found =>
                match after_prefix w s with
                | Some rest => Some rest
                | None => found
                end) None white_space.

(** [String.prototype.trimStart]: white space characters are skipped as long
    as there is one.  Each skips at least one byte, so the length of the
    string is fuel enough. *)
Fixpoint trimStart_from (fuel : nat) (s : string) : string :=
  match fuel with
  | O => s
  | S fuel' =>
      match skip_white_space s with
      | Some rest => trimStart_from fuel' rest
      | None => s
      end
  end.

Definition trimStart (s : string) : string := trimStart_from (String.length s) s.

(** A string that is white space from end to end. *)
Definition blank (s : string) : bool :=
  match trimStart s with EmptyString => true | _ => false end.

(** [String.prototype.trimEnd]: the longest blank end of the string is
    dropped. *)
Fixpoint trimEnd (s : string) : string :=
  match s with
  | EmptyString => EmptyString
  | String c s' => if blank s then EmptyString else String c (trimEnd s')
  end.

(** [String.prototype.trim]. *)
Definition trim (s : string) : string := trimEnd (trimStart s).

(** [String.prototype.split] with a one-character separator: the pieces
    between separators, empty ones included; never the empty list. *)
Fixpoint split (sep : ascii) (s : string) : list string :=
  match s with
  | EmptyString => [EmptyString]
  | String c s' =>
      if Ascii.eqb c sep then EmptyString :: split sep s'
      else match split sep s' with
           | t :: ts => String c t :: ts
           | [] => [String c EmptyString]
           end
  end.

(** [Array.prototype.join]. *)
Definition join (sep : string) (l : list string) : string := String.concat sep l.

(** Truthiness of a string value: every string but the empty one. *)
Definition truthy (s : string) : bool :=
  match s with EmptyString => false | _ => true end.

Definition to_lower (c : ascii) : ascii :=
  let n := nat_of_ascii c in
  if ((65 <=? n)%nat && (n <=? 90)%nat)%bool then ascii_of_nat (n + 32) else c.

Fixpoint toLowerCase (s : string) : string :=
  match s with
  | EmptyString => EmptyString
  | String c s' => String (to_lower c) (toLowerCase s')
  end.

Fixpoint includes (needle hay : string) : bool :=
  String.prefix needle hay ||
  match hay with
  | EmptyString => false
  | String _ hay' => includes needle hay'
  end.

(** ** Numbers *)

Definition number := float.

Definition isNaN (x : number) : bool := PrimFloat.is_nan x.
Definition lt (x y : number) : bool := PrimFloat.ltb x y.
Definition gt (x y : number) : bool := PrimFloat.ltb y x.
Definition le (x y : number) : bool := PrimFloat.leb x y.

(** The binary64 value nearest to [m * 2^e] (ties to even), for [0 <= m];
    [neg] gives the sign, also of a zero. *)
Definition round_binary (neg : bool) (m e : Z) : number :=
  let x := SF2Prim (binary_normalize prec emax m e false) in
  if neg then PrimFloat.opp x else x.

(** The binary64 value nearest to [m * 10^e10], for [0 <= m].  A negative
    exponent divides: the quotient is taken with more than 64 significant
    bits and a sticky last bit, which rounds as the exact quotient does. *)
Definition round_decimal (neg : bool) (m e10 : Z) : number :=
  if (m =? 0)%Z then round_binary neg 0 0
  else if (0 <=? e10)%Z then round_binary neg (m * 10 ^ e10) 0
  else
    let d := (10 ^ (- e10))%Z in
    let s := Z.max 0 (64 + Z.log2_up d - Z.log2 m) in
    let n := (m * 2 ^ s)%Z in
    let q := (n / d)%Z in
    let sticky := if (n mod d =? 0)%Z then 0%Z else 1%Z in
    round_binary neg (2 * q + sticky) (- s - 1).

(** The value of a digit in a radix up to 36, if it is one. *)
Definition digit_value (radix : Z) (c : ascii) : option Z :=
  let n := Z.of_nat (nat_of_ascii c) in
  let v :=
    if ((48 <=? n) && (n <=? 57))%Z then Some (n - 48)%Z
    else if ((97 <=? n) && (n <=? 122))%Z then Some (n - 87)%Z
    else if ((65 <=? n) && (n <=? 90))%Z then Some (n - 55)%Z
    else None in
  match v with
  | Some d => if (d <? radix)%Z then Some d else None
  | None => None
  end.

(** The longest run of digits at the front of [s], and what follows it. *)
Fixpoint take_digits (radix : Z) (s : string) : list Z * string :=
  match s with
  | EmptyString => ([], EmptyString)
  | String c s' =>
      match digit_value radix c with
      | Some d => let (ds, rest) := take_digits radix s' in (d :: ds, rest)
      | None => ([], s)
      end
  end.

Definition digits_value (radix : Z) (ds : list Z) : Z :=
  fold_left (fun acc d => (acc * radix + d)%Z) ds 0%Z.

Definition scan_sign (s : string) : bool * string :=
  match s with
  | String "-" s' => (true, s')
  | String "+" s' => (false, s')
  | _ => (false, s)
  end.

(** [ExponentPart], when a well-formed one is there: [e] or [E], an optional
    sign, and at least one digit.  Otherwise the exponent is 0 and nothing is
    consumed. *)
Definition scan_exponent (s : string) : Z * string :=
  match s with
  | String c s' =>
      if (Ascii.eqb c "e" || Ascii.eqb c "E")%bool then
        let (neg, s1) := scan_sign s' in
        let (ds, s2) := take_digits 10 s1 in
        match ds with
        | [] => (0%Z, s)
        | _ => ((if neg then - digits_value 10 ds else digits_value 10 ds)%Z, s2)
        end
      else (0%Z, s)
  | EmptyString => (0%Z, s)
  end.

(** The longest prefix of [s] that is a [StrUnsignedDecimalLiteral] other
    than [Infinity]: digits, optionally a point and digits, or a point and
    at least one digit; then an optional exponent.  The result is the decimal
    mantissa, the decimal exponent and the rest of the string. *)
Definition scan_unsigned_decimal (s : string) : option (Z * Z * string) :=
  let (ip, s1) := take_digits 10 s in
  match ip, s1 with
  | [], String "." s2 =>
      let (fp, s3) := take_digits 10 s2 in
      match fp with
      | [] => None
      | _ =>
          let (e, s4) := scan_exponent s3 in
          Some (digits_value 10 fp, (e - Z.of_nat (length fp))%Z, s4)
      end
  | [], _ => None
  | _, String "." s2 =>
      let (fp, s3) := take_digits 10 s2 in
      let (e, s4) := scan_exponent s3 in
      Some (digits_value 10 (ip ++ fp), (e - Z.of_nat (length fp))%Z, s4)
  | _, _ =>
      let (e, s4) := scan_exponent s1 in
      Some (digits_value 10 ip, e, s4)
  end.

(** The longest prefix of [s] that is a [StrDecimalLiteral], its value and
    the rest of the string. *)
Definition scan_decimal (s : string) : option (number * string) :=
  let (neg, s1) := scan_sign s in
  if String.prefix "Infinity" s1 then
    Some (if neg then neg_infinity else infinity,
          String.substring 8 (String.length s1 - 8) s1)
  else
    match scan_unsigned_decimal s1 with
    | Some (m, e10, rest) => Some (round_decimal neg m e10, rest)
    | None => None
    end.

(** [parseFloat] of a string. *)
Definition parseFloat_string (s : string) : number :=
  match scan_decimal (trimStart s) with
  | Some (x, _) => x
  | None => nan
  end.

(** [parseInt] of a string, no radix given: radix 16 after [0x] or [0X],
    else radix 10; [NaN] when no digit follows the optional sign. *)
Definition parseInt (s : string) : number :=
  let (neg, s1) := scan_sign (trimStart s) in
  let (radix, s2) :=
    match s1 with
    | String "0" (String c s') =>
        if (Ascii.eqb c "x" || Ascii.eqb c "X")%bool then (16%Z, s') else (10%Z, s1)
    | _ => (10%Z, s1)
    end in
  match fst (take_digits radix s2) with
  | [] => nan
  | ds => round_binary neg (digits_value radix ds) 0
  end.

(** A [0x], [0o] or [0b] integer literal spanning all of [s]. *)
Definition scan_non_decimal (s : string) : option number :=
  match s with
  | String "0" (String c s') =>
      let radix :=
        if (Ascii.eqb c "x" || Ascii.eqb c "X")%bool then Some 16%Z
        else if (Ascii.eqb c "o" || Ascii.eqb c "O")%bool then Some 8%Z
        else if (Ascii.eqb c "b" || Ascii.eqb c "B")%bool then Some 2%Z
        else None in
      match radix with
      | Some r =>
          match take_digits r s' with
          | ([], _) => None
          | (ds, EmptyString) => Some (round_binary false (digits_value r ds) 0)
          | (_, String _ _) => None
          end
      | None => None
      end
  | _ => None
  end.

(** [ToNumber] of a string ([StringToNumber]): the trimmed string must be
    empty (value 0) or be a numeric literal as a whole. *)
Definition ToNumber_string (s : string) : number :=
  let t := trim s in
  match t with
  | EmptyString => zero
  | _ =>
      match scan_non_decimal t with
      | Some x => x
      | None =>
          match scan_decimal t with
          | Some (x, EmptyString) => x
          | _ => nan
          end
      end
  end.

(** ** Values of a request body field

    A field of a JSON body holds a string, a number, a boolean or [null]; a
    field that is left out reads as [undefined].  (Arrays and objects are
    left aside.) *)
Inductive value : Type :=
| VUndefined
| VNull
| VBoolean (b : bool)
| VNumber (x : number)
| VString (s : string).

(** [ToBoolean]: the truthiness of a value in a condition. *)
Definition ToBoolean (v : value) : bool :=
  match v with
  | VUndefined => false
  | VNull => false
  | VBoolean b => b
  | VNumber x => negb (PrimFloat.eqb x zero || isNaN x)
  | VString s => truthy s
  end.

(** [ToNumber], as the relational operators apply it to an operand. *)
Definition ToNumber (v : value) : number :=
  match v with
  | VUndefined => nan
  | VNull => zero
  | VBoolean true => one
  | VBoolean false => zero
  | VNumber x => x
  | VString s => ToNumber_string s
  end.

(** [parseFloat(v)] is [parseFloat(ToString(v))].  [Number::toString] prints
    a number so that it reads back as the same number, but for the sign of
    zero, which it drops. *)
Definition parseFloat (v : value) : number :=
  match v with
  | VUndefined => parseFloat_string "undefined"
  | VNull => parseFloat_string "null"
  | VBoolean true => parseFloat_string "true"
  | VBoolean false => parseFloat_string "false"
  | VNumber x => if PrimFloat.eqb x zero then zero else x
  | VString s => parseFloat_string s
  end.

End JS.

(* ================================================================== *)
(** * The course collection *)
(* ================================================================== *)

Module Db.

Import JS.

(** Identities are assigned by the store. *)
Definition ObjectId := nat.

(** Modelled from the spec: the schema [../models/courseSchema.js] is not
    among the sources.  The data model gives a course a store-assigned
    identity, four strings, two numeric credit-hour attributes and a sequence
    of identities of other courses.  A numeric attribute may hold [null]
    (here [None]): that is what the store's cast to a number makes of an
    empty string in an update. *)
Record Course : Type := mkCourse {
  _id : ObjectId;
  code : string;
  name : string;
  prerequisites : list ObjectId;
  department : string;
  semester : string;
  lectureCreditHours : option number;
  labCreditHours : option number
}.

(** Modelled from the spec: the store behind the schema, which offers
    insert, find by identity with update or delete, and find by predicate
    with expansion of [prerequisites].  It is the collection in insertion
    order, and the next identity to assign. *)
Record Store : Type := mkStore {
  docs : list Course;
  next_id : ObjectId
}.

(** [Course.find()]. *)
Definition find_all (st : Store) : list Course := docs st.

(** [Course.find({ code: { $in: codes } })]. *)
Definition find_code_in (codes : list string) (st : Store) : list Course :=
  filter (fun c => existsb (String.eqb (code c)) codes) (docs st).

(** [.select("_id code")]. *)
Definition select_id_code (l : list Course) : list (ObjectId * string) :=
  map (fun c => (_id c, code c)) l.

Definition findById (id : ObjectId) (l : list Course) : option Course :=
  find (fun c => (_id c =? id)%nat) l.

(** [new Course({...})]: the document gets its identity here. *)
Definition new_Course (st : Store) (code name : string) (prerequisites : list ObjectId)
    (department semester : string) (lectureCreditHours labCreditHours : number) : Course :=
  mkCourse (next_id st) code name prerequisites department semester
           (Some lectureCreditHours) (Some labCreditHours).

(** [doc.save()] of a new document. *)
Definition save (c : Course) (st : Store) : Store :=
  mkStore (docs st ++ [c]) (S (next_id st)).

(** Modelled from the spec: the credit hours are numeric attributes, so the
    store casts an update value to a number.  [null] and [undefined] are no
    number and stay what they are, the empty string becomes [null] (all
    three [Some None] here), a string or a boolean is converted with
    [Number], and [NaN] is refused (the outer [None]). *)
Definition castNumber (v : value) : option (option number) :=
  match v with
  | VUndefined => Some None
  | VNull => Some None
  | VString EmptyString => Some None
  | _ => if isNaN (ToNumber v) then None else Some (Some (ToNumber v))
  end.

(** What an update does to an attribute: [None] leaves it as it is,
    [Some a] sets it to [a]. *)
Definition change (A : Type) : Type := option A.

(** Modelled from the spec: a field of the update that is [undefined] is not
    part of the update; any other value is cast. *)
Definition cast_change (v : value) : option (change (option number)) :=
  match v with
  | VUndefined => Some None
  | _ => option_map Some (castNumber v)
  end.

(** The update of a document, after the cast.  The prerequisites are always
    set. *)
Record Update : Type := mkUpdate {
  set_code : change string;
  set_name : change string;
  set_prerequisites : list ObjectId;
  set_department : change string;
  set_semester : change string;
  set_lectureCreditHours : change (option number);
  set_labCreditHours : change (option number)
}.

Definition changed {A : Type} (c : change A) (old : A) : A :=
  match c with
  | Some a => a
  | None => old
  end.

Definition apply_update (u : Update) (c : Course) : Course :=
  mkCourse (_id c)
           (changed (set_code u) (code c))
           (changed (set_name u) (name c))
           (set_prerequisites u)
           (changed (set_department u) (department c))
           (changed (set_semester u) (semester c))
           (changed (set_lectureCreditHours u) (lectureCreditHours c))
           (changed (set_labCreditHours u) (labCreditHours c)).

Fixpoint update_first (id : ObjectId) (u : Update) (l : list Course)
  : option (Course * list Course) :=
  match l with
  | [] => None
  | c :: l' =>
      if (_id c =? id)%nat then Some (apply_update u c, apply_update u c :: l')
      else match update_first id u l' with
           | Some (c', l'') => Some (c', c :: l'')
           | None => None
           end
  end.

(** [Course.findByIdAndUpdate(id, update, { new: true })]: the updated
    document, or nothing when no document has that identity. *)
Definition findByIdAndUpdate (id : ObjectId) (u : Update) (st : Store)
  : option Course * Store :=
  match update_first id u (docs st) with
  | Some (c, l) => (Some c, mkStore l (next_id st))
  | None => (None, st)
  end.

Fixpoint delete_first (id : ObjectId) (l : list Course) : option (Course * list Course) :=
  match l with
  | [] => None
  | c :: l' =>
      if (_id c =? id)%nat then Some (c, l')
      else match delete_first id l' with
           | Some (d, l'') => Some (d, c :: l'')
           | None => None
           end
  end.

(** [Course.findByIdAndDelete(id)]: the deleted document, or nothing. *)
Definition findByIdAndDelete (id : ObjectId) (st : Store) : option Course * Store :=
  match delete_first id (docs st) with
  | Some (c, l) => (Some c, mkStore l (next_id st))
  | None => (None, st)
  end.

(** ** Expansion of prerequisites *)

Record PrerequisiteRef : Type := mkRef {
  ref_id : ObjectId;
  ref_code : string;
  ref_name : string
}.

Record PopulatedCourse : Type := mkPopulated {
  p_id : ObjectId;
  p_code : string;
  p_name : string;
  p_prerequisites : list PrerequisiteRef;
  p_department : string;
  p_semester : string;
  p_lectureCreditHours : option number;
  p_labCreditHours : option number
}.

(** [.populate("prerequisites", "code name")]: every identity is replaced by
    the code and name of the course that has it; an identity that no course
    has is dropped. *)
Definition populate_ref (st : Store) (id : ObjectId) : list PrerequisiteRef :=
  match findById id (docs st) with
  | Some d => [mkRef (_id d) (code d) (name d)]
  | None => []
  end.

Definition populate (st : Store) (c : Course) : PopulatedCourse :=
  mkPopulated (_id c) (code c) (name c)
              (flat_map (populate_ref st) (prerequisites c))
              (department c) (semester c)
              (lectureCreditHours c) (labCreditHours c).

(** ** Search queries *)

(** [{ $gte: x, $lte: y }], either bound optional. *)
Record Range : Type := mkRange {
  gte : option number;
  lte : option number
}.

(** The query object [searchCourse] builds: a key that was not set is [None].
    [code], [name] and [department] hold the pattern of
    [{ $regex: pattern, $options: "i" }]. *)
Record Query : Type := mkQuery {
  q_code : option string;
  q_name : option string;
  q_department : option string;
  q_semester : option string;
  q_lectureCreditHours : option Range;
  q_labCreditHours : option Range
}.

(** A bound is cast to a number when the query is built for the store, which
    refuses [NaN]. *)
Definition bound_ok (b : option number) : bool :=
  match b with
  | Some x => negb (isNaN x)
  | None => true
  end.

Definition range_ok (r : option Range) : bool :=
  match r with
  | Some r => bound_ok (gte r) && bound_ok (lte r)
  | None => true
  end.

Definition above (b : option number) (x : number) : bool :=
  match b with Some lo => le lo x | None => true end.

Definition below (b : option number) (x : number) : bool :=
  match b with Some hi => le x hi | None => true end.

(** Range conditions hold of numbers only: a [null] attribute has none. *)
Definition match_range (r : option Range) (h : option number) : bool :=
  match r with
  | None => true
  | Some r =>
      match h with
      | Some x => above (gte r) x && below (lte r) x
      | None => false
      end
  end.

Definition match_exact (q : option string) (s : string) : bool :=
  match q with
  | None => true
  | Some v => String.eqb s v
  end.

Section Regex.

(** The store's regular-expression engine, for patterns with option [i]
    (case-insensitive): the compiled pattern as a test of whether it matches
    somewhere in a string, or [None] for a pattern that does not compile. *)
Variable regex_i : string -> option (string -> bool).

Definition regex_ok (q : option string) : bool :=
  match q with
  | None => true
  | Some p => match regex_i p with Some _ => true | None => false end
  end.

Definition match_regex (q : option string) (s : string) : bool :=
  match q with
  | None => true
  | Some p => match regex_i p with Some test => test s | None => false end
  end.

Definition query_ok (q : Query) : bool :=
  regex_ok (q_code q) && regex_ok (q_name q) && regex_ok (q_department q) &&
  range_ok (q_lectureCreditHours q) && range_ok (q_labCreditHours q).

Definition matches (q : Query) (c : Course) : bool :=
  match_regex (q_code q) (code c) &&
  match_regex (q_name q) (name c) &&
  match_regex (q_department q) (department c) &&
  match_exact (q_semester q) (semester c) &&
  match_range (q_lectureCreditHours q) (lectureCreditHours c) &&
  match_range (q_labCreditHours q) (labCreditHours c).

(** [Course.find(query)]: the documents that satisfy every condition of the
    query, in collection order; [None] when the store refuses the query. *)
Definition find (q : Query) (st : Store) : option (list Course) :=
  if query_ok q then Some (filter (matches q) (docs st)) else None.

End Regex.

End Db.

(* ================================================================== *)
(** * Requests and responses *)
(* ================================================================== *)

Module Req.

(** [req.body] of [addCourse].  Modelled from the spec: [code], [name],
    [department] and [semester] are required strings of a create request;
    what becomes of a document without one of them is the schema's to say,
    which is not among the sources.  The other three fields hold any value,
    [undefined] when left out. *)
Record body : Type := mkBody {
  code : string;
  name : string;
  prerequisites : JS.value;
  department : string;
  semester : string;
  lectureCreditHours : JS.value;
  labCreditHours : JS.value
}.

(** [req.query] of [searchCourse]: every parameter is a string, or absent. *)
Record query : Type := mkQuery {
  q_code : option string;
  q_name : option string;
  q_department : option string;
  q_semester : option string;
  minLectureHours : option string;
  maxLectureHours : option string;
  minLabHours : option string;
  maxLabHours : option string
}.

End Req.

Module Upd.

(** [req.body] of [updateCourse]: any field may be left out ([None],
    [undefined]); the update then leaves the attribute as it is. *)
Record body : Type := mkBody {
  code : option string;
  name : option string;
  prerequisites : JS.value;
  department : option string;
  semester : option string;
  lectureCreditHours : JS.value;
  labCreditHours : JS.value
}.

End Upd.

(** The JSON bodies the handlers send. *)
Inductive json : Type :=
| Message (message : string)
| MessageCourse (message : string) (course : Db.Course)
| Courses (courses : list Db.PopulatedCourse).

(** [res.status(s).json(b)]. *)
Record response : Type := mkResponse {
  status : nat;
  body : json
}.

(** A handler reads the collection and leaves a collection behind. *)
Definition Handler : Type := Db.Store -> response * Db.Store.

(** An optional string in a condition: absent and empty are both falsy. *)
Definition truthy (o : option string) : bool :=
  match o with
  | Some s => JS.truthy s
  | None => false
  end.

(* ================================================================== *)
(** * The handlers *)
(* ================================================================== *)

(** The codes of [prerequisiteCodes] that no course of [prerequisiteCourses]
    has. *)
Definition missing (prerequisiteCodes : list string)
    (prerequisiteCourses : list (Db.ObjectId * string)) : list string :=
  filter (fun code =>
            negb (existsb (fun course => String.eqb (snd course) code) prerequisiteCourses))
         prerequisiteCodes.

Definition not_found_message (missingCodes : list string) : string :=
  "Prerequisite courses not found: " ++ JS.join ", " missingCodes.

(** [addCourse] (lines 4-55).  A missing prerequisite ends the handler with
    404; otherwise the new document is made and saved.  A truthy
    [prerequisites] that is not a string has no [split]: the call throws,
    and the [catch] branch answers 500. *)
Definition addCourse (req : Req.body) : Handler := fun st =>
  let lectureCreditHoursNum := JS.parseFloat (Req.lectureCreditHours req) in
  let labCreditHoursNum := JS.parseFloat (Req.labCreditHours req) in
  if JS.isNaN lectureCreditHoursNum || JS.isNaN labCreditHoursNum then
    (mkResponse 400 (Message "Invalid credit hours, must be a number"), st)
  else if JS.lt lectureCreditHoursNum 1%float || JS.gt lectureCreditHoursNum 3%float ||
          JS.lt labCreditHoursNum 0%float || JS.gt labCreditHoursNum 1%float then
    (mkResponse 400 (Message "Invalid credit hours range"), st)
  else
    let create (prerequisiteCourses : list (Db.ObjectId * string)) :=
      let newCourse :=
        Db.new_Course st (Req.code req) (Req.name req)
                      (map fst prerequisiteCourses)
                      (Req.department req) (Req.semester req)
                      lectureCreditHoursNum labCreditHoursNum in
      (mkResponse 201 (MessageCourse "Course added successfully" newCourse),
       Db.save newCourse st) in
    if JS.ToBoolean (Req.prerequisites req) then
      match Req.prerequisites req with
      | JS.VString prerequisites =>
          let prerequisiteCodes := map JS.trim (JS.split "," prerequisites) in
          let prerequisiteCourses :=
            Db.select_id_code (Db.find_code_in prerequisiteCodes st) in
          let missingCodes := missing prerequisiteCodes prerequisiteCourses in
          if (0 <? length missingCodes)%nat then
            (mkResponse 404 (Message (not_found_message missingCodes)), st)
          else create prerequisiteCourses
      | _ => (mkResponse 500 (Message "Error adding course"), st)
      end
    else create [].

(** [updateCourse] (lines 58-110); [courseId] is [req.params.courseId], read
    as an identity.  The comparisons of the check convert their operand with
    [ToNumber].  A truthy [prerequisites] that is not a string makes [split]
    throw.  The store casts the update's credit hours to numbers; a value it
    cannot cast makes the update throw.  What is thrown, the handler's
    [catch] reports as 500. *)
Definition updateCourse (courseId : Db.ObjectId) (req : Upd.body) : Handler := fun st =>
  let lectureCreditHours := JS.ToNumber (Upd.lectureCreditHours req) in
  let labCreditHours := JS.ToNumber (Upd.labCreditHours req) in
  if JS.lt lectureCreditHours 1%float || JS.gt lectureCreditHours 3%float ||
     JS.lt labCreditHours 0%float || JS.gt labCreditHours 1%float then
    (mkResponse 400 (Message "Invalid credit hours"), st)
  else
    let update (prerequisiteCourses : list (Db.ObjectId * string)) :=
      match Db.cast_change (Upd.lectureCreditHours req),
            Db.cast_change (Upd.labCreditHours req) with
      | Some lecture, Some lab =>
          let fields :=
            Db.mkUpdate (Upd.code req) (Upd.name req)
                        (map fst prerequisiteCourses)
                        (Upd.department req) (Upd.semester req) lecture lab in
          match Db.findByIdAndUpdate courseId fields st with
          | (Some updatedCourse, st') =>
              (mkResponse 200 (MessageCourse "Course updated successfully" updatedCourse), st')
          | (None, st') =>
              (mkResponse 404 (Message "Course not found"), st')
          end
      | _, _ => (mkResponse 500 (Message "Error updating course"), st)
      end in
    if JS.ToBoolean (Upd.prerequisites req) then
      match Upd.prerequisites req with
      | JS.VString prerequisites =>
          let prerequisiteCodes := JS.split "," prerequisites in
          let prerequisiteCourses :=
            Db.select_id_code (Db.find_code_in prerequisiteCodes st) in
          let missingCodes := missing prerequisiteCodes prerequisiteCourses in
          if (0 <? length missingCodes)%nat then
            (mkResponse 404 (Message (not_found_message missingCodes)), st)
          else update prerequisiteCourses
      | _ => (mkResponse 500 (Message "Error updating course"), st)
      end
    else update [].

(** [deleteCourse] (lines 113-128). *)
Definition deleteCourse (courseId : Db.ObjectId) : Handler := fun st =>
  match Db.findByIdAndDelete courseId st with
  | (Some deletedCourse, st') =>
      (mkResponse 200 (Message "Course deleted successfully"), st')
  | (None, st') =>
      (mkResponse 404 (Message "Course not found"), st')
  end.

(** [getAllCourses] (lines 131-140). *)
Definition getAllCourses : Handler := fun st =>
  let courses := map (Db.populate st) (Db.find_all st) in
  (mkResponse 200 (Courses courses), st).

(** A bound of the query: set when the parameter is truthy, to what
    [parseInt] reads from it. *)
Definition bound (p : option string) : option JS.number :=
  match p with
  | Some s => if JS.truthy s then Some (JS.parseInt s) else None
  | None => None
  end.

Definition range (min max : option string) : option Db.Range :=
  if truthy min || truthy max then Some (Db.mkRange (bound min) (bound max))
  else None.

(** A string condition of the query: set when the parameter is truthy. *)
Definition supplied (p : option string) : option string :=
  match p with
  | Some s => if JS.truthy s then Some s else None
  | None => None
  end.

(** The query object [searchCourse] builds from [req.query]. *)
Definition build_query (q : Req.query) : Db.Query :=
  Db.mkQuery (supplied (Req.q_code q)) (supplied (Req.q_name q))
             (supplied (Req.q_department q)) (supplied (Req.q_semester q))
             (range (Req.minLectureHours q) (Req.maxLectureHours q))
             (range (Req.minLabHours q) (Req.maxLabHours q)).

Section Search.

Variable regex_i : string -> option (string -> bool).

(** [searchCourse] (lines 143-190): a query the store refuses makes [find]
    throw, which the handler's [catch] reports as 500. *)
Definition searchCourse (q : Req.query) : Handler := fun st =>
  match Db.find regex_i (build_query q) st with
  | Some found =>
      let courses := map (Db.populate st) found in
      if (length courses =? 0)%nat then
        (mkResponse 404 (Message "No courses found matching the criteria"), st)
      else (mkResponse 200 (Courses courses), st)
  | None => (mkResponse 500 (Message "Error searching for courses"), st)
  end.

End Search.

(* ================================================================== *)
(** * Vocabulary of the properties *)
(* ================================================================== *)

(** The collection's invariant: identities are unique, and all of them were
    assigned before [next_id]. *)
Definition wf_store (st : Db.Store) : Prop :=
  NoDup (map Db._id (Db.docs st)) /\
  Forall (fun c => Db._id c < Db.next_id st) (Db.docs st).

(** Some course of the collection has this code. *)
Definition has_course (st : Db.Store) (code : string) : bool :=
  existsb (fun c => String.eqb (Db.code c) code) (Db.docs st).

(** The candidate codes that no course of the collection has. *)
Definition unresolved (st : Db.Store) (codes : list string) : list string :=
  filter (fun code => negb (has_course st code)) codes.

(** The courses of the collection whose code is a candidate, in collection
    order, and their identities. *)
Definition resolved (st : Db.Store) (codes : list string) : list Db.Course :=
  filter (fun c => existsb (String.eqb (Db.code c)) codes) (Db.docs st).

Definition resolved_ids (st : Db.Store) (codes : list string) : list Db.ObjectId :=
  map Db._id (resolved st codes).

(** The candidate codes of a prerequisites string, as [addCourse] and as
    [updateCourse] take them. *)
Definition create_codes (prerequisites : string) : list string :=
  map JS.trim (JS.split "," prerequisites).

Definition update_codes (prerequisites : string) : list string :=
  JS.split "," prerequisites.

(** A string that is a run of white space characters. *)
Inductive white : string -> Prop :=
| white_empty : white ""
| white_more (w s : string) :
    In w JS.white_space -> white s -> white (w ++ s)%string.

(** A string with no white space character at either end. *)
Definition no_outer_white_space (s : string) : Prop :=
  forall w u, In w JS.white_space -> s <> (w ++ u)%string /\ s <> (u ++ w)%string.

(** [t] is [s] without the white space around it. *)
Definition trimmed (s t : string) : Prop :=
  (exists l r, white l /\ white r /\ s = (l ++ t ++ r)%string) /\
  no_outer_white_space t.

(** [addCourse]'s two checks of the credit hours, on the parsed values. *)
Definition not_numeric (req : Req.body) : bool :=
  JS.isNaN (JS.parseFloat (Req.lectureCreditHours req)) ||
  JS.isNaN (JS.parseFloat (Req.labCreditHours req)).

Definition out_of_range (lecture lab : JS.number) : bool :=
  JS.lt lecture 1%float || JS.gt lecture 3%float ||
  JS.lt lab 0%float || JS.gt lab 1%float.

(** The closed interval from [lo] to [hi]; [NaN] is in no interval. *)
Definition within (lo hi x : JS.number) : bool := JS.le lo x && JS.le x hi.

(** A request whose credit hours [addCourse] accepts. *)
Definition create_hours_ok (req : Req.body) : bool :=
  negb (not_numeric req) &&
  negb (out_of_range (JS.parseFloat (Req.lectureCreditHours req))
                     (JS.parseFloat (Req.labCreditHours req))).

(** A request whose credit hours pass [updateCourse]'s check. *)
Definition update_hours_ok (req : Upd.body) : bool :=
  negb (out_of_range (JS.ToNumber (Upd.lectureCreditHours req))
                     (JS.ToNumber (Upd.labCreditHours req))).

(** A [prerequisites] value on which [split] throws: one that is truthy and
    not a string. *)
Definition not_a_string (prerequisites : JS.value) : bool :=
  match prerequisites with
  | JS.VString _ => false
  | v => JS.ToBoolean v
  end.

(** The candidate codes of a [prerequisites] value: those of a non-empty
    string, and none otherwise. *)
Definition requested (codes_of : string -> list string) (prerequisites : JS.value)
  : list string :=
  match prerequisites with
  | JS.VString p => if JS.truthy p then codes_of p else []
  | _ => []
  end.

(** The document [addCourse] creates once the candidates are resolved. *)
Definition created (req : Req.body) (st : Db.Store) : Db.Course :=
  Db.new_Course st (Req.code req) (Req.name req)
                (resolved_ids st (requested create_codes (Req.prerequisites req)))
                (Req.department req) (Req.semester req)
                (JS.parseFloat (Req.lectureCreditHours req))
                (JS.parseFloat (Req.labCreditHours req)).

(** The update [updateCourse] hands to the store once the candidates are
    resolved and the credit hours are cast. *)
Definition update_of (req : Upd.body) (st : Db.Store)
    (lecture lab : Db.change (option JS.number)) : Db.Update :=
  Db.mkUpdate (Upd.code req) (Upd.name req)
              (resolved_ids st (requested update_codes (Upd.prerequisites req)))
              (Upd.department req) (Upd.semester req) lecture lab.

(** The end of [updateCourse], once the candidates are resolved: the cast
    of the credit hours, and the write. *)
Definition write_update (courseId : Db.ObjectId) (req : Upd.body) (st : Db.Store)
  : response * Db.Store :=
  match Db.cast_change (Upd.lectureCreditHours req),
        Db.cast_change (Upd.labCreditHours req) with
  | Some lecture, Some lab =>
      match Db.findByIdAndUpdate courseId (update_of req st lecture lab) st with
      | (Some updatedCourse, st') =>
          (mkResponse 200
             (MessageCourse "Course updated successfully" updatedCourse), st')
      | (None, st') => (mkResponse 404 (Message "Course not found"), st')
      end
  | _, _ => (mkResponse 500 (Message "Error updating course"), st)
  end.

(** An update body that gives every field of a create body. *)
Definition to_update (req : Req.body) : Upd.body :=
  Upd.mkBody (Some (Req.code req)) (Some (Req.name req)) (Req.prerequisites req)
             (Some (Req.department req)) (Some (Req.semester req))
             (Req.lectureCreditHours req) (Req.labCreditHours req).

(** ** The search filter as the specification words it

    [code], [name] and [department] are case-insensitive substring tests,
    [semester] is an exact test, and the four bounds are inclusive bounds at
    the numeric value of the parameter; an absent parameter is no test. *)

Definition contains_ci (filter text : string) : bool :=
  JS.includes (JS.toLowerCase filter) (JS.toLowerCase text).

Definition spec_text (filter : option string) (text : string) : bool :=
  match filter with
  | Some f => contains_ci f text
  | None => true
  end.

Definition spec_exact (filter : option string) (text : string) : bool :=
  match filter with
  | Some f => String.eqb text f
  | None => true
  end.

Definition spec_min (filter : option string) (hours : option JS.number) : bool :=
  match filter, hours with
  | Some f, Some h => JS.le (JS.ToNumber_string f) h
  | Some _, None => false
  | None, _ => true
  end.

Definition spec_max (filter : option string) (hours : option JS.number) : bool :=
  match filter, hours with
  | Some f, Some h => JS.le h (JS.ToNumber_string f)
  | Some _, None => false
  | None, _ => true
  end.

Definition spec_matches (q : Req.query) (c : Db.Course) : bool :=
  spec_text (Req.q_code q) (Db.code c) &&
  spec_text (Req.q_name q) (Db.name c) &&
  spec_text (Req.q_department q) (Db.department c) &&
  spec_exact (Req.q_semester q) (Db.semester c) &&
  spec_min (Req.minLectureHours q) (Db.lectureCreditHours c) &&
  spec_max (Req.maxLectureHours q) (Db.lectureCreditHours c) &&
  spec_min (Req.minLabHours q) (Db.labCreditHours c) &&
  spec_max (Req.maxLabHours q) (Db.labCreditHours c).


(** The characters a regular expression reads as operators. *)
Definition metacharacters : list ascii :=
  ["\"; "^"; "$"; "."; "|"; "?"; "*"; "+"; "("; ")"; "["; "]"; "{"; "}"]%char.

Fixpoint literal (p : string) : bool :=
  match p with
  | EmptyString => true
  | String c p' => negb (existsb (Ascii.eqb c) metacharacters) && literal p'
  end.

(** A string of ASCII characters only. *)
Fixpoint ascii_only (s : string) : bool :=
  match s with
  | EmptyString => true
  | String c s' => (nat_of_ascii c <? 128)%nat && ascii_only s'
  end.

(** What is asked of the store's engine: an ASCII pattern without operators
    compiles, and on ASCII text it is the case-insensitive substring test.
    Nothing is asked of it on other patterns or other text, where engines
    differ in what they take for the same letter. *)
Definition literal_law (regex_i : string -> option (string -> bool)) : Prop :=
  forall p, literal p = true -> ascii_only p = true ->
    exists test, regex_i p = Some test /\
                 forall s, ascii_only s = true -> test s = contains_ci p s.

(** An engine that reads every pattern literally, byte by byte. *)
Definition substring_engine : string -> option (string -> bool) :=
  fun p => Some (contains_ci p).

(** Case folding that also takes the capital letters of the Latin-1
    supplement (U+00C0 to U+00DE but U+00D7, two bytes each) to their small
    letters. *)
Fixpoint fold_latin1 (s : string) : string :=
  match s with
  | EmptyString => EmptyString
  | String c1 s1 =>
      match s1 with
      | String c2 s2 =>
          let n2 := nat_of_ascii c2 in
          if ((nat_of_ascii c1 =? 195) && (128 <=? n2) && (n2 <=? 158) &&
              negb (n2 =? 151))%nat
          then String c1 (String (ascii_of_nat (n2 + 32)) (fold_latin1 s2))
          else String (JS.to_lower c1) (fold_latin1 s1)
      | EmptyString => String (JS.to_lower c1) EmptyString
      end
  end.

(** An engine that refuses a pattern with an operator, and folds case as
    [fold_latin1] does. *)
Definition folding_engine : string -> option (string -> bool) :=
  fun p => if literal p
           then Some (fun s => JS.includes (fold_latin1 p) (fold_latin1 s))
           else None.


(** A bound that is a non-empty string of decimal digits. *)
Definition is_decimal_digit (c : ascii) : bool :=
  let n := nat_of_ascii c in (48 <=? n)%nat && (n <=? 57)%nat.

Fixpoint decimal_digits (s : string) : bool :=
  match s with
  | EmptyString => true
  | String c s' => is_decimal_digit c && decimal_digits s'
  end.

Definition whole_number (s : string) : bool :=
  JS.truthy s && decimal_digits s.

Definition when_supplied (P : string -> Prop) (p : option string) : Prop :=
  match supplied p with
  | Some s => P s
  | None => True
  end.



(** The answer of a search that found these courses. *)
Definition search_answer (st : Db.Store) (found : list Db.Course) : response :=
  match found with
  | [] => mkResponse 404 (Message "No courses found matching the criteria")
  | _ => mkResponse 200 (Courses (map (Db.populate st) found))
  end.

(** ** The search filter as the handler reads it

    A parameter that is absent or empty is no test.  [code], [name] and
    [department] are patterns of the store's engine, [semester] is an exact
    test, and a bound is the integer [parseInt] reads from the parameter.  A
    course without a number for credit hours is within no bound. *)

Section Reading.

Variable regex_i : string -> option (string -> bool).









End Reading.

(** The identities among [ids] that a course of the collection has. *)
Definition present (st : Db.Store) (ids : list Db.ObjectId) : list Db.ObjectId :=
  filter (fun id => existsb (fun d => (Db._id d =? id)%nat) (Db.docs st)) ids.

(** ** Characters of a string *)

Fixpoint occurs (c : ascii) (s : string) : bool :=
  match s with
  | EmptyString => false
  | String d s' => Ascii.eqb d c || occurs c s'
  end.

(** ** A small catalog, for the examples *)

Definition cs101 : Db.Course :=
  Db.mkCourse 0 "CS101" "Programming" [] "CS101-Dept" "Fall"
              (Some 3%float) (Some 1%float).

Definition cs102 : Db.Course :=
  Db.mkCourse 1 "CS102" "Data Structures" [0] "CS101-Dept" "Spring"
              (Some 1.5%float) (Some 0.5%float).

Definition ma201 : Db.Course :=
  Db.mkCourse 2 "MA201" "Calculus" [] "Math" "Fall"
              (Some 1.25%float) (Some 0%float).

Definition catalog : Db.Store := Db.mkStore [cs101; cs102; ma201] 3.

(** A request for a course CS201 with these credit hours and prerequisites. *)
Definition cs201 (lecture lab prerequisites : JS.value) : Req.body :=
  Req.mkBody "CS201" "Algorithms" prerequisites "CS101-Dept" "Fall" lecture lab.

(** NO-BREAK SPACE, U+00A0. *)
Definition NBSP : string := JS.utf8 160.

(** Prerequisites with white space around the codes, a NO-BREAK SPACE
    included. *)
Definition spaced_CS101_CS202 : string := (" CS101" ++ NBSP ++ " , CS202 ")%string.

Definition spaced_CS101_CS102 : string := ("CS101" ++ NBSP ++ ", CS102 ")%string.

(** An update that renames a course and gives the lecture hours as a binary
    literal; the other fields are left out. *)
Definition rename_to_calculus_1 : Upd.body :=
  Upd.mkBody None (Some "Calculus I") (JS.VString "CS102,CS101") None None
             (JS.VString "0b11") JS.VUndefined.

(** A search with nothing but these bounds on the lecture hours. *)
Definition lecture_between (min max : option string) : Req.query :=
  Req.mkQuery None None None None min max None None.

Definition to_ref (c : Db.Course) : Db.PrerequisiteRef :=
  Db.mkRef (Db._id c) (Db.code c) (Db.name c).

Definition emptyStore : Db.Store := Db.mkStore [] 0.

(** ** Vocabulary of the further properties *)

(** Referential integrity: every stored prerequisite is the identity of a
    course of the collection. *)
Definition refs_ok (st : Db.Store) : Prop :=
  forall c id, In c (Db.docs st) -> In id (Db.prerequisites c) ->
               In id (map Db._id (Db.docs st)).

(** Every stored prerequisite is an identity the store has assigned. *)
Definition refs_assigned (st : Db.Store) : Prop :=
  forall c id, In c (Db.docs st) -> In id (Db.prerequisites c) ->
               id < Db.next_id st.

(** The documents after the course of identity [id] took the update [u]. *)
Definition replaced (id : Db.ObjectId) (u : Db.Update) (l : list Db.Course)
  : list Db.Course :=
  map (fun d => if (Db._id d =? id)%nat then Db.apply_update u d else d) l.

(** A search request none of whose parameters is there and not empty. *)
Definition no_filter (q : Req.query) : Prop :=
  truthy (Req.q_code q) = false /\ truthy (Req.q_name q) = false /\
  truthy (Req.q_department q) = false /\ truthy (Req.q_semester q) = false /\
  truthy (Req.minLectureHours q) = false /\ truthy (Req.maxLectureHours q) = false /\
  truthy (Req.minLabHours q) = false /\ truthy (Req.maxLabHours q) = false.

(** What stands before the first point of a string. *)
Fixpoint before_point (s : string) : string :=
  match s with
  | EmptyString => EmptyString
  | String c s' => if Ascii.eqb c "." then EmptyString else String c (before_point s')
  end.

(** The request with every bound cut at its first point. *)
Definition drop_fractions (q : Req.query) : Req.query :=
  Req.mkQuery (Req.q_code q) (Req.q_name q) (Req.q_department q) (Req.q_semester q)
              (option_map before_point (Req.minLectureHours q))
              (option_map before_point (Req.maxLectureHours q))
              (option_map before_point (Req.minLabHours q))
              (option_map before_point (Req.maxLabHours q)).

(** Bounds whose part before the point is a whole number. *)
Definition whole_part_bounds (q : Req.query) : Prop :=
  when_supplied (fun b => whole_number (before_point b) = true) (Req.minLectureHours q) /\
  when_supplied (fun b => whole_number (before_point b) = true) (Req.maxLectureHours q) /\
  when_supplied (fun b => whole_number (before_point b) = true) (Req.minLabHours q) /\
  when_supplied (fun b => whole_number (before_point b) = true) (Req.maxLabHours q).

(** The requests of the five routes, and a run of requests from a
    collection on. *)
Inductive request : Type :=
| AddCourse (body : Req.body)
| UpdateCourse (courseId : Db.ObjectId) (body : Upd.body)
| DeleteCourse (courseId : Db.ObjectId)
| GetAllCourses
| SearchCourse (query : Req.query).

Definition handle (regex_i : string -> option (string -> bool)) (r : request) : Handler :=
  match r with
  | AddCourse b => addCourse b
  | UpdateCourse id b => updateCourse id b
  | DeleteCourse id => deleteCourse id
  | GetAllCourses => getAllCourses
  | SearchCourse q => searchCourse regex_i q
  end.

Definition run (regex_i : string -> option (string -> bool)) (rs : list request)
    (st : Db.Store) : Db.Store :=
  fold_left (fun s r => snd (handle regex_i r s)) rs st.

(* ================================================================== *)
(** * Lists, strings and the collection *)
(* ================================================================== *)

Lemma existsb_eqb_In (code : string) (codes : list string) :
  existsb (String.eqb code) codes = true <-> In code codes.
Proof.
  rewrite existsb_exists. split.
  - intros [x [Hin Heq]]. apply String.eqb_eq in Heq. now subst.
  - intro Hin. exists code. split; [assumption | apply String.eqb_refl].
Qed.

Lemma has_course_iff (st : Db.Store) (code : string) :
  has_course st code = true <-> exists c, In c (Db.docs st) /\ Db.code c = code.
Proof.
  unfold has_course. rewrite existsb_exists.
  split; intros [c [Hin H]]; exists c; split; auto.
  - now apply String.eqb_eq.
  - now apply String.eqb_eq.
Qed.

Lemma resolved_In (st : Db.Store) (codes : list string) (c : Db.Course) :
  In c (resolved st codes) <-> In c (Db.docs st) /\ In (Db.code c) codes.
Proof.
  unfold resolved. rewrite filter_In, existsb_eqb_In. tauto.
Qed.

(** What the handlers compute from the query's result is what the
    collection says: a candidate is missing when no course has its code. *)
Lemma missing_unresolved (st : Db.Store) (codes : list string) :
  missing codes (Db.select_id_code (Db.find_code_in codes st)) = unresolved st codes.
Proof.
  unfold missing, unresolved. apply filter_ext_in. intros code Hcode. f_equal.
  apply eq_true_iff_eq. rewrite has_course_iff, existsb_exists. split.
  - intros [[id k] [Hin Heq]]. simpl in Heq. apply String.eqb_eq in Heq. subst k.
    unfold Db.select_id_code in Hin. apply in_map_iff in Hin.
    destruct Hin as [c [Hc Hin]]. inversion Hc; subst; clear Hc.
    apply filter_In in Hin. exists c. tauto.
  - intros [c [Hin Hc]]. exists (Db._id c, Db.code c). split.
    + unfold Db.select_id_code. apply in_map_iff. exists c.
      split; [reflexivity|]. unfold Db.find_code_in.
      apply filter_In. split; [assumption|].
      apply existsb_eqb_In. now rewrite Hc.
    + simpl. rewrite Hc. apply String.eqb_refl.
Qed.

Lemma select_ids (st : Db.Store) (codes : list string) :
  map fst (Db.select_id_code (Db.find_code_in codes st)) = resolved_ids st codes.
Proof.
  unfold Db.select_id_code, resolved_ids, resolved, Db.find_code_in.
  rewrite map_map. reflexivity.
Qed.

Lemma truthy_nonempty (s : string) : JS.truthy s = true <-> s <> "".
Proof.
  destruct s; simpl; split; intro H; congruence.
Qed.

(** ** [split], [join] and [trim] *)

Lemma split_not_nil (sep : ascii) (s : string) : JS.split sep s <> [].
Proof.
  destruct s as [|c s]; simpl; [discriminate|].
  destruct (Ascii.eqb c sep); [discriminate|].
  destruct (JS.split sep s); discriminate.
Qed.

(** Joining the pieces with the separator gives the string back. *)
Lemma join_split (sep : ascii) (s : string) :
  JS.join (String sep "") (JS.split sep s) = s.
Proof.
  unfold JS.join. induction s as [|c s IH]; simpl; [reflexivity|].
  pose proof (split_not_nil sep s) as Hne.
  destruct (JS.split sep s) as [|t ts]; [contradiction|].
  destruct (Ascii.eqb c sep) eqn:E.
  - apply Ascii.eqb_eq in E. subst c.
    change (String.concat (String sep "") ("" :: t :: ts))
      with (String sep (String.concat (String sep "") (t :: ts))).
    now rewrite IH.
  - rewrite <- IH. destruct ts; reflexivity.
Qed.

(** No piece holds the separator. *)
Lemma split_pieces (sep : ascii) (s t : string) :
  In t (JS.split sep s) -> occurs sep t = false.
Proof.
  revert t. induction s as [|c s IH]; simpl; intros t Hin.
  - destruct Hin as [<- | []]. reflexivity.
  - destruct (Ascii.eqb c sep) eqn:E.
    + destruct Hin as [<- | Hin]; [reflexivity | auto].
    + destruct (JS.split sep s) as [|u us].
      * destruct Hin as [<- | []]. simpl. now rewrite E.
      * destruct Hin as [<- | Hin]; [|apply IH; now right].
        simpl. rewrite E. apply IH. now left.
Qed.

Lemma occurs_append (c : ascii) (a b : string) :
  occurs c (a ++ b) = occurs c a || occurs c b.
Proof.
  induction a as [|d a IH]; simpl; [reflexivity|]. now rewrite IH, orb_assoc.
Qed.

Local Open Scope string_scope.

(** ** White space and [trim] *)

Lemma append_nil_r (s : string) : s ++ "" = s.
Proof. induction s; simpl; congruence. Qed.

Lemma append_assoc (a b c : string) : (a ++ b) ++ c = a ++ (b ++ c).
Proof. induction a; simpl; congruence. Qed.

Lemma length_append (a b : string) :
  String.length (a ++ b) = String.length a + String.length b.
Proof. induction a; simpl; congruence. Qed.

Lemma after_prefix_spec (w s r : string) : JS.after_prefix w s = Some r <-> s = w ++ r.
Proof.
  revert s. induction w as [|a w IH]; intros s; simpl.
  - split; intro H; congruence.
  - destruct s as [|b s]; [split; discriminate|].
    destruct (Ascii.eqb a b) eqn:E.
    + apply Ascii.eqb_eq in E. subst b. rewrite IH. split; intro H; congruence.
    + apply Ascii.eqb_neq in E. split; [discriminate|]. intro H. congruence.
Qed.

Lemma skip_white_space_some (s r : string) :
  JS.skip_white_space s = Some r -> exists w, In w JS.white_space /\ s = w ++ r.
Proof.
  unfold JS.skip_white_space. induction JS.white_space as [|w l IH]; simpl; [discriminate|].
  destruct (JS.after_prefix w s) as [r'|] eqn:E.
  - intro H. inversion H; subst. exists w. split; [now left|]. now apply after_prefix_spec.
  - intro H. destruct (IH H) as [w' [Hin Hs]]. exists w'. auto.
Qed.

Lemma skip_white_space_none (s : string) :
  JS.skip_white_space s = None -> forall w r, In w JS.white_space -> s <> w ++ r.
Proof.
  unfold JS.skip_white_space. induction JS.white_space as [|w l IH]; simpl; [intros _ w r []|].
  destruct (JS.after_prefix w s) as [r'|] eqn:E; [discriminate|].
  intros H w' r [<- | Hin].
  - intro Hs. apply after_prefix_spec in Hs. congruence.
  - now apply IH.
Qed.

Lemma white_space_not_empty (w : string) : In w JS.white_space -> w <> "".
Proof.
  intro H. vm_compute in H.
  repeat (destruct H as [<- | H]; [discriminate|]). contradiction.
Qed.

Lemma skip_white_space_prefix (w s : string) :
  In w JS.white_space -> JS.skip_white_space (w ++ s) = Some s.
Proof.
  intro H. vm_compute in H.
  repeat (destruct H as [<- | H]; [reflexivity|]). contradiction.
Qed.

Lemma skip_white_space_shorter (s r : string) :
  JS.skip_white_space s = Some r -> String.length r < String.length s.
Proof.
  intro H. apply skip_white_space_some in H. destruct H as [w [Hin ->]].
  rewrite length_append. apply white_space_not_empty in Hin.
  destruct w; [contradiction | simpl; lia].
Qed.

Lemma trimStart_from_enough (n m : nat) (s : string) :
  String.length s <= n -> String.length s <= m ->
  JS.trimStart_from n s = JS.trimStart_from m s.
Proof.
  revert m s. induction n as [|n IH]; intros m s Hn Hm.
  - destruct s; [|simpl in Hn; lia]. destruct m; reflexivity.
  - destruct m as [|m].
    + destruct s; [reflexivity | simpl in Hm; lia].
    + simpl. destruct (JS.skip_white_space s) as [r|] eqn:E; [|reflexivity].
      apply skip_white_space_shorter in E. apply IH; lia.
Qed.

(** [trimStart] drops white space characters from the front as long as there
    is one. *)
Lemma trimStart_step (s : string) :
  JS.trimStart s =
    match JS.skip_white_space s with
    | Some rest => JS.trimStart rest
    | None => s
    end.
Proof.
  unfold JS.trimStart. destruct s as [|c s]; [reflexivity|].
  cbn [String.length JS.trimStart_from].
  destruct (JS.skip_white_space (String c s)) as [r|] eqn:E; [|reflexivity].
  apply skip_white_space_shorter in E. simpl in E. apply trimStart_from_enough; lia.
Qed.

Lemma trimStart_spec (s : string) :
  exists l, white l /\ s = l ++ JS.trimStart s /\
            JS.skip_white_space (JS.trimStart s) = None.
Proof.
  remember (String.length s) as n eqn:Hn. revert s Hn.
  induction n as [n IH] using lt_wf_ind. intros s Hn.
  rewrite trimStart_step. destruct (JS.skip_white_space s) as [r|] eqn:E.
  - pose proof (skip_white_space_shorter s r E) as Hlt.
    destruct (skip_white_space_some s r E) as [w [Hw ->]].
    destruct (IH (String.length r) ltac:(lia) r eq_refl) as [l [Hl [Hr Hnone]]].
    exists (w ++ l). split; [now constructor | split; [|exact Hnone]].
    rewrite append_assoc. now rewrite <- Hr.
  - exists "". split; [constructor | split; [reflexivity | exact E]].
Qed.

Lemma trimStart_white (l s : string) : white l -> JS.trimStart (l ++ s) = JS.trimStart s.
Proof.
  induction 1 as [|w l Hw Hl IH]; [reflexivity|].
  rewrite append_assoc, trimStart_step, (skip_white_space_prefix w _ Hw). exact IH.
Qed.

Lemma trimStart_fixed (s : string) : JS.skip_white_space s = None -> JS.trimStart s = s.
Proof. intro H. now rewrite trimStart_step, H. Qed.

Lemma blank_white (s : string) : JS.blank s = true <-> white s.
Proof.
  unfold JS.blank. split.
  - intro H. destruct (trimStart_spec s) as [l [Hl [Hs _]]].
    destruct (JS.trimStart s); [|discriminate]. rewrite append_nil_r in Hs. now subst.
  - intro H. rewrite <- (append_nil_r s), (trimStart_white s "" H). reflexivity.
Qed.

Lemma trimEnd_spec (s : string) :
  exists r, white r /\ s = JS.trimEnd s ++ r /\
            forall w u, In w JS.white_space -> JS.trimEnd s <> u ++ w.
Proof.
  induction s as [|c s IH].
  - exists "". split; [constructor | split; [reflexivity|]].
    intros w u Hw H. apply white_space_not_empty in Hw.
    destruct u; simpl in H; [congruence | discriminate].
  - cbn [JS.trimEnd]. destruct (JS.blank (String c s)) eqn:E.
    + exists (String c s). split; [now apply blank_white | split; [reflexivity|]].
      intros w u Hw H. apply white_space_not_empty in Hw.
      destruct u; simpl in H; [congruence | discriminate].
    + destruct IH as [r [Hr [Hs Hend]]]. exists r.
      split; [exact Hr | split; [simpl; now rewrite <- Hs|]].
      intros w u Hw H. destruct u as [|d u]; simpl in H.
      * assert (Hb : JS.blank (String c s) = true).
        { apply blank_white. rewrite Hs.
          change (String c (JS.trimEnd s ++ r)) with (String c (JS.trimEnd s) ++ r).
          rewrite H. now constructor. }
        congruence.
      * inversion H; subst. now apply (Hend w u).
Qed.

(** What [trim] is: the string without the white space around it. *)
Lemma trim_spec (s : string) :
  exists l r, white l /\ white r /\ s = l ++ JS.trim s ++ r /\
    forall w u, In w JS.white_space -> JS.trim s <> w ++ u /\ JS.trim s <> u ++ w.
Proof.
  unfold JS.trim. destruct (trimStart_spec s) as [l [Hl [Hs Hnone]]].
  destruct (trimEnd_spec (JS.trimStart s)) as [r [Hr [Ht Hend]]].
  exists l, r. split; [exact Hl | split; [exact Hr | split]].
  - now rewrite <- Ht.
  - intros w u Hw. split; [|now apply Hend].
    intro H. apply (skip_white_space_none _ Hnone w (u ++ r) Hw).
    rewrite Ht at 1. rewrite H. apply append_assoc.
Qed.

Lemma white_last (s : string) :
  white s -> s <> "" -> exists u w, In w JS.white_space /\ s = u ++ w.
Proof.
  induction 1 as [|w s Hw Hs IH]; [congruence|]. intros _.
  destruct s as [|c s'].
  - exists "", w. now rewrite append_nil_r.
  - destruct IH as [u [w' [Hw' Hs']]]; [discriminate|].
    exists (w ++ u), w'. split; [exact Hw'|]. rewrite Hs'. symmetry. apply append_assoc.
Qed.

Lemma trimEnd_fixed (s : string) :
  (forall w u, In w JS.white_space -> s <> u ++ w) -> JS.trimEnd s = s.
Proof.
  induction s as [|c s IH]; intro H; [reflexivity|].
  cbn [JS.trimEnd]. destruct (JS.blank (String c s)) eqn:E.
  - apply blank_white in E. destruct (white_last _ E) as [u [w [Hw Hs]]]; [discriminate|].
    exfalso. now apply (H w u).
  - rewrite IH; [reflexivity|]. intros w u Hw Hs. apply (H w (String c u) Hw).
    simpl. now rewrite Hs.
Qed.

Lemma trim_fixed (s : string) :
  (forall w u, In w JS.white_space -> s <> w ++ u /\ s <> u ++ w) -> JS.trim s = s.
Proof.
  intro H. unfold JS.trim. rewrite trimStart_fixed.
  - apply trimEnd_fixed. intros w u Hw. destruct (H w u Hw) as [_ Hsuf]. exact Hsuf.
  - destruct (JS.skip_white_space s) as [r|] eqn:E; [|reflexivity].
    apply skip_white_space_some in E. destruct E as [w [Hw Hs]].
    exfalso. destruct (H w r Hw) as [Hpre _]. now apply Hpre.
Qed.

Lemma trim_idempotent (s : string) : JS.trim (JS.trim s) = JS.trim s.
Proof.
  apply trim_fixed. destruct (trim_spec s) as [l [r [_ [_ [_ H]]]]]. exact H.
Qed.

Lemma trim_trimmed (s : string) : trimmed s (JS.trim s).
Proof.
  destruct (trim_spec s) as [l [r [Hl [Hr [Hs H]]]]].
  split; [exists l, r; auto | exact H].
Qed.

(** A comma-free string stays comma-free when trimmed. *)
Lemma occurs_trim (c : ascii) (s : string) :
  occurs c s = false -> occurs c (JS.trim s) = false.
Proof.
  destruct (trim_spec s) as [l [r [_ [_ [Hs _]]]]]. intro H.
  rewrite Hs, !occurs_append in H.
  apply orb_false_iff in H. destruct H as [_ H].
  apply orb_false_iff in H. tauto.
Qed.

Local Open Scope list_scope.

Lemma resolved_ids_nil (st : Db.Store) : resolved_ids st [] = [].
Proof.
  unfold resolved_ids, resolved. induction (Db.docs st) as [|c l IH]; simpl; auto.
Qed.

(* ================================================================== *)
(** * Binary64 comparisons and rounding *)
(* ================================================================== *)

Lemma SFcompare_antisym (x y : spec_float) :
  SFcompare y x = option_map CompOpp (SFcompare x y).
Proof.
  destruct x as [sx | sx | | sx mx ex], y as [sy | sy | | sy my ey];
    simpl; try reflexivity;
    try (destruct sx; reflexivity); try (destruct sy; reflexivity);
    try (destruct sx, sy; reflexivity).
  destruct sx, sy; simpl; try reflexivity;
    rewrite (Z.compare_antisym ex ey);
    destruct (Z.compare ex ey); simpl; try reflexivity.
  - rewrite (Pos.compare_cont_antisym mx my Eq). reflexivity.
  - rewrite (Pos.compare_cont_antisym mx my Eq). reflexivity.
Qed.

Lemma Prim2SF_not_nan (x : float) :
  PrimFloat.is_nan x = false -> Prim2SF x <> S754_nan.
Proof.
  intro H. unfold Prim2SF. rewrite H.
  destruct (is_zero x); [discriminate|].
  destruct (is_infinity x); [discriminate|].
  destruct (Z.frexp x) as [r e].
  destruct (shr_fexp _ _ _ _ _) as [m e'].
  destruct (shr_m m); discriminate.
Qed.

Lemma SFcompare_none (x y : spec_float) :
  SFcompare x y = None -> x = S754_nan \/ y = S754_nan.
Proof.
  destruct x, y; simpl; auto; discriminate.
Qed.

Lemma leb_ltb_dual (x y : float) :
  PrimFloat.is_nan x = false -> PrimFloat.is_nan y = false ->
  PrimFloat.leb x y = negb (PrimFloat.ltb y x).
Proof.
  intros Hx Hy. rewrite leb_spec, ltb_spec. unfold SFleb, SFltb.
  rewrite (SFcompare_antisym (Prim2SF x) (Prim2SF y)).
  destruct (SFcompare (Prim2SF x) (Prim2SF y)) as [[]|] eqn:E; try reflexivity.
  apply SFcompare_none in E. destruct E as [E | E].
  - now apply Prim2SF_not_nan in Hx.
  - now apply Prim2SF_not_nan in Hy.
Qed.

Section Rounding.

Variables prec emax : Z.

Lemma shr_1_nonneg (mrs : shr_record) :
  (0 <= shr_m mrs)%Z -> (0 <= shr_m (shr_1 mrs))%Z.
Proof.
  destruct mrs as [m r s]. destruct m as [|[p|p|]|p]; simpl; lia.
Qed.

Lemma iter_pos_invariant {A} (P : A -> Prop) (f : A -> A) :
  (forall x, P x -> P (f x)) -> forall n x, P x -> P (iter_pos f n x).
Proof.
  intro Hf. induction n as [n IH|n IH|]; simpl; intros x Hx; auto.
Qed.

Lemma shr_fexp_nonneg (m e : Z) (l : location) :
  (0 <= m)%Z -> (0 <= shr_m (fst (shr_fexp prec emax m e l)))%Z.
Proof.
  intro Hm. unfold shr_fexp, shr.
  assert (H0 : (0 <= shr_m (shr_record_of_loc m l))%Z)
    by (destruct l as [|[]]; exact Hm).
  destruct (fexp prec emax (Zdigits2 m + e) - e)%Z; simpl; try exact H0.
  apply (iter_pos_invariant (fun r => (0 <= shr_m r)%Z)); auto using shr_1_nonneg.
Qed.

Lemma round_nearest_even_nonneg (m : Z) (l : location) :
  (0 <= m)%Z -> (0 <= round_nearest_even m l)%Z.
Proof.
  intro Hm. destruct l as [|[]]; simpl; try destruct (Z.even m); lia.
Qed.

Lemma binary_round_aux_not_nan (sx : bool) (mx ex : Z) (lx : location) :
  (0 <= mx)%Z -> binary_round_aux prec emax sx mx ex lx <> S754_nan.
Proof.
  intro Hm. unfold binary_round_aux.
  pose proof (shr_fexp_nonneg mx ex lx Hm) as H1.
  destruct (shr_fexp prec emax mx ex lx) as [mrs' e']. simpl in H1.
  pose proof (shr_fexp_nonneg _ e' loc_Exact
                (round_nearest_even_nonneg _ (loc_of_shr_record mrs') H1)) as H2.
  destruct (shr_fexp prec emax _ e' loc_Exact) as [mrs'' e'']. simpl in H2.
  destruct (shr_m mrs'') as [|p|p]; try discriminate.
  - destruct (e'' <=? emax - prec)%Z; discriminate.
  - lia.
Qed.

Lemma binary_round_not_nan (sx : bool) (mx : positive) (ex : Z) :
  binary_round prec emax sx mx ex <> S754_nan.
Proof.
  unfold binary_round. destruct (shl_align mx ex _) as [mz ez].
  apply binary_round_aux_not_nan. lia.
Qed.

Lemma binary_normalize_not_nan (m e : Z) (szero : bool) :
  binary_normalize prec emax m e szero <> S754_nan.
Proof.
  destruct m; simpl; try discriminate; apply binary_round_not_nan.
Qed.

End Rounding.

Lemma SFcompare_refl (x : spec_float) : x <> S754_nan -> SFcompare x x = Some Eq.
Proof.
  destruct x as [s|s| |s m e]; simpl; intro H; try reflexivity.
  - destruct s; reflexivity.
  - contradiction.
  - destruct s; rewrite Z.compare_refl, Pos.compare_cont_refl; reflexivity.
Qed.

Lemma is_nan_Prim2SF (x : float) : Prim2SF x <> S754_nan -> PrimFloat.is_nan x = false.
Proof.
  intro H. unfold PrimFloat.is_nan. rewrite FloatAxioms.eqb_spec. unfold SFeqb.
  now rewrite (SFcompare_refl _ H).
Qed.

Lemma SF2Prim_not_nan (x : spec_float) :
  x <> S754_nan -> PrimFloat.is_nan (SF2Prim x) = false.
Proof.
  destruct x as [s|s| |s m e]; simpl; intro H.
  - destruct s; reflexivity.
  - destruct s; reflexivity.
  - contradiction.
  - assert (Hf : Prim2SF (Z.ldexp (of_uint63 (Uint63.of_Z (Z.pos m))) e) <> S754_nan).
    { rewrite Z_ldexp_spec, of_uint63_spec.
      pose proof (binary_normalize_not_nan prec emax
                    (Uint63.to_Z (Uint63.of_Z (Z.pos m))) 0 false) as Hn.
      destruct (binary_normalize prec emax _ 0 false); simpl; try discriminate.
      - contradiction.
      - apply binary_round_not_nan. }
    destruct s; apply is_nan_Prim2SF; [|exact Hf].
    rewrite opp_spec. destruct (Prim2SF _); simpl; try discriminate. contradiction.
Qed.

Lemma round_binary_not_NaN (neg : bool) (m e : Z) :
  JS.isNaN (JS.round_binary neg m e) = false.
Proof.
  unfold JS.isNaN, JS.round_binary.
  pose proof (SF2Prim_not_nan _ (binary_normalize_not_nan prec emax m e false)) as H.
  destruct neg; [|exact H].
  apply is_nan_Prim2SF. rewrite opp_spec.
  apply Prim2SF_not_nan in H.
  destruct (Prim2SF _); simpl; try discriminate. contradiction.
Qed.

(** A comparison with [NaN] on either side is false. *)
Lemma NaN_le_false (x y : JS.number) :
  JS.isNaN x = true -> JS.le x y = false /\ JS.le y x = false.
Proof.
  unfold JS.isNaN, JS.le. intro H. rewrite !leb_spec.
  assert (E : Prim2SF x = S754_nan) by (unfold Prim2SF; now rewrite H).
  rewrite E. split; [reflexivity|].
  destruct (Prim2SF y); reflexivity.
Qed.

(** Outside an interval: not a number, below it or above it. *)
Lemma outside_interval (lo hi x : JS.number) :
  JS.isNaN lo = false -> JS.isNaN hi = false ->
  negb (within lo hi x) = JS.isNaN x || JS.lt x lo || JS.gt x hi.
Proof.
  intros Hlo Hhi. unfold within. destruct (JS.isNaN x) eqn:Hx.
  - destruct (NaN_le_false x lo Hx) as [_ ->]. reflexivity.
  - unfold JS.le, JS.lt, JS.gt, JS.isNaN in *.
    rewrite (leb_ltb_dual lo x Hlo Hx), (leb_ltb_dual x hi Hx Hhi).
    now rewrite negb_andb, !negb_involutive.
Qed.



(* ================================================================== *)
(** * Whole numbers *)
(* ================================================================== *)

Lemma decimal_digit_cases (c : ascii) :
  is_decimal_digit c = true ->
  In c ["0"; "1"; "2"; "3"; "4"; "5"; "6"; "7"; "8"; "9"]%char.
Proof.
  destruct c as [b0 b1 b2 b3 b4 b5 b6 b7].
  destruct b0, b1, b2, b3, b4, b5, b6, b7; vm_compute; intro H;
    try discriminate; tauto.
Qed.

Ltac digit_cases c H :=
  apply decimal_digit_cases in H; simpl in H;
  repeat (destruct H as [H | H]; [subst c | ]); [.. | contradiction].

Lemma take_digits_all (s : string) :
  decimal_digits s = true ->
  exists ds, JS.take_digits 10 s = (ds, "") /\ (s <> "" -> ds <> []).
Proof.
  induction s as [|c s IH]; simpl; intro H.
  - exists []. split; [reflexivity | intro E; now contradiction E].
  - apply andb_prop in H. destruct H as [Hc Hs].
    destruct (IH Hs) as [ds [E _]].
    digit_cases c Hc; cbn [JS.take_digits]; 
      match goal with |- context [JS.digit_value 10 ?c] =>
        let v := eval vm_compute in (JS.digit_value 10 c) in
        change (JS.digit_value 10 c) with v end;
      rewrite E; eexists; (split; [reflexivity | discriminate]).
Qed.

Lemma decimal_digits_append (a b : string) :
  decimal_digits (a ++ b) = decimal_digits a && decimal_digits b.
Proof.
  induction a as [|c a IH]; simpl; [reflexivity|]. now rewrite IH, andb_assoc.
Qed.

Lemma white_space_not_digits (w : string) :
  In w JS.white_space -> decimal_digits w = false.
Proof.
  intro H. vm_compute in H.
  repeat (destruct H as [<- | H]; [reflexivity|]). contradiction.
Qed.

Lemma trimEnd_digits (s : string) : decimal_digits s = true -> JS.trimEnd s = s.
Proof.
  intro H. apply trimEnd_fixed. intros w u Hw Hs.
  rewrite Hs, decimal_digits_append, (white_space_not_digits w Hw), andb_false_r in H.
  discriminate.
Qed.

Lemma round_decimal_integer (m : Z) :
  JS.round_decimal false m 0 = JS.round_binary false m 0.
Proof.
  unfold JS.round_decimal. destruct (m =? 0)%Z eqn:E.
  - apply Z.eqb_eq in E. now subst.
  - simpl (0 <=? 0)%Z. cbv iota. now rewrite Z.pow_0_r, Z.mul_1_r.
Qed.

Lemma parseInt_digits (c : ascii) (s : string) :
  is_decimal_digit c = true -> decimal_digits s = true ->
  exists ds, JS.take_digits 10 (String c s) = (ds, "") /\ ds <> [] /\
    JS.parseInt (String c s) = JS.round_binary false (JS.digits_value 10 ds) 0.
Proof.
  intros Hc Hs.
  destruct (take_digits_all (String c s)) as [ds [E Hne]].
  { simpl. now rewrite Hc, Hs. }
  exists ds. split; [exact E | split; [apply Hne; discriminate|]].
  assert (Hne' : ds <> []) by (apply Hne; discriminate).
  unfold JS.parseInt.
  assert (Hs1 : JS.scan_sign (JS.trimStart (String c s)) = (false, String c s)).
  { digit_cases c Hc; reflexivity. }
  rewrite Hs1.
  assert (Hradix : match String c s with
    | String "0" (String c0 s') =>
        if (Ascii.eqb c0 "x" || Ascii.eqb c0 "X")%bool then (16%Z, s') else (10%Z, String c s)
    | _ => (10%Z, String c s)
    end = (10%Z, String c s)).
  { destruct s as [|c2 s2]; [digit_cases c Hc; reflexivity|].
    simpl in Hs. apply andb_prop in Hs. destruct Hs as [Hc2 _].
    digit_cases c Hc; try reflexivity.
    digit_cases c2 Hc2; reflexivity. }
  rewrite Hradix, E. simpl fst. destruct ds; [contradiction | reflexivity].
Qed.

Lemma scan_non_decimal_digits (c : ascii) (s : string) :
  is_decimal_digit c = true -> decimal_digits s = true ->
  JS.scan_non_decimal (String c s) = None.
Proof.
  intros Hc Hs. destruct s as [|c2 s2]; [digit_cases c Hc; reflexivity|].
  simpl in Hs. apply andb_prop in Hs. destruct Hs as [Hc2 _].
  digit_cases c Hc; try reflexivity.
  digit_cases c2 Hc2; reflexivity.
Qed.

Lemma scan_decimal_digits (c : ascii) (s : string) (ds : list Z) :
  is_decimal_digit c = true ->
  JS.take_digits 10 (String c s) = (ds, "") -> ds <> [] ->
  JS.scan_decimal (String c s) =
    Some (JS.round_binary false (JS.digits_value 10 ds) 0, "").
Proof.
  intros Hc E Hne. unfold JS.scan_decimal.
  assert (Hs1 : JS.scan_sign (String c s) = (false, String c s)).
  { digit_cases c Hc; reflexivity. }
  rewrite Hs1.
  assert (Hinf : String.prefix "Infinity" (String c s) = false).
  { digit_cases c Hc; reflexivity. }
  rewrite Hinf. unfold JS.scan_unsigned_decimal. rewrite E.
  destruct ds as [|d ds]; [contradiction|].
  cbn [JS.scan_exponent]. now rewrite round_decimal_integer.
Qed.

(** On a string of decimal digits, [parseInt] reads the numeric value. *)
Lemma parseInt_whole_number (s : string) :
  whole_number s = true -> JS.parseInt s = JS.ToNumber_string s.
Proof.
  unfold whole_number. intro H. apply andb_prop in H. destruct H as [Hne Hd].
  destruct s as [|c s]; [discriminate|].
  pose proof Hd as Hd'. simpl in Hd'. apply andb_prop in Hd'. destruct Hd' as [Hc Hs].
  destruct (parseInt_digits c s Hc Hs) as [ds [E [Hds ->]]].
  unfold JS.ToNumber_string, JS.trim.
  assert (Hts : JS.trimStart (String c s) = String c s).
  { digit_cases c Hc; reflexivity. }
  rewrite Hts, (trimEnd_digits _ Hd).
  rewrite (scan_non_decimal_digits c s Hc Hs).
  now rewrite (scan_decimal_digits c s ds Hc E Hds).
Qed.

Lemma parseInt_whole_number_not_NaN (s : string) :
  whole_number s = true -> JS.isNaN (JS.parseInt s) = false.
Proof.
  unfold whole_number. intro H. apply andb_prop in H. destruct H as [Hne Hd].
  destruct s as [|c s]; [discriminate|].
  simpl in Hd. apply andb_prop in Hd. destruct Hd as [Hc Hs].
  destruct (parseInt_digits c s Hc Hs) as [ds [_ [_ ->]]].
  apply round_binary_not_NaN.
Qed.
(* ================================================================== *)
(** * addCourse *)
(* ================================================================== *)

Lemma addCourse_not_numeric (req : Req.body) (st : Db.Store) :
  not_numeric req = true ->
  addCourse req st =
    (mkResponse 400 (Message "Invalid credit hours, must be a number"), st).
Proof.
  unfold not_numeric, addCourse. intros ->. reflexivity.
Qed.

Lemma addCourse_out_of_range (req : Req.body) (st : Db.Store) :
  not_numeric req = false ->
  out_of_range (JS.parseFloat (Req.lectureCreditHours req))
               (JS.parseFloat (Req.labCreditHours req)) = true ->
  addCourse req st = (mkResponse 400 (Message "Invalid credit hours range"), st).
Proof.
  unfold not_numeric, out_of_range, addCourse. intros -> ->. reflexivity.
Qed.

(** Past the two checks, [addCourse] throws on a [prerequisites] value
    without [split], names the unresolved candidates, or stores the new
    document. *)
Lemma addCourse_accepted (req : Req.body) (st : Db.Store) :
  create_hours_ok req = true ->
  addCourse req st =
    if not_a_string (Req.prerequisites req)
    then (mkResponse 500 (Message "Error adding course"), st)
    else
      match unresolved st (requested create_codes (Req.prerequisites req)) with
      | [] => (mkResponse 201 (MessageCourse "Course added successfully" (created req st)),
               Db.save (created req st) st)
      | missingCodes => (mkResponse 404 (Message (not_found_message missingCodes)), st)
      end.
Proof.
  unfold create_hours_ok. intro H. apply andb_prop in H. destruct H as [Hn Hr].
  apply negb_true_iff in Hn. apply negb_true_iff in Hr.
  unfold not_numeric in Hn. unfold out_of_range in Hr.
  unfold addCourse. rewrite Hn, Hr. unfold created, requested, not_a_string.
  destruct (Req.prerequisites req) as [| |b|x|p].
  - simpl. now rewrite resolved_ids_nil.
  - simpl. now rewrite resolved_ids_nil.
  - destruct b; simpl; [reflexivity | now rewrite resolved_ids_nil].
  - destruct (JS.ToBoolean (JS.VNumber x)); simpl;
      [reflexivity | now rewrite resolved_ids_nil].
  - cbn [JS.ToBoolean]. destruct (JS.truthy p) eqn:Hp.
    + fold (create_codes p). rewrite missing_unresolved, select_ids.
      destruct (unresolved st (create_codes p)) eqn:Hu; reflexivity.
    + simpl. now rewrite resolved_ids_nil.
Qed.

Lemma requested_string (codes_of : string -> list string) (p : string) :
  p <> "" -> requested codes_of (JS.VString p) = codes_of p.
Proof.
  intro Hne. simpl. apply truthy_nonempty in Hne. now rewrite Hne.
Qed.

(** The same for a request whose [prerequisites] is a string. *)
Lemma addCourse_resolving (req : Req.body) (st : Db.Store) (p : string) :
  create_hours_ok req = true ->
  Req.prerequisites req = JS.VString p ->
  addCourse req st =
    match unresolved st (requested create_codes (JS.VString p)) with
    | [] => (mkResponse 201 (MessageCourse "Course added successfully" (created req st)),
             Db.save (created req st) st)
    | missingCodes => (mkResponse 404 (Message (not_found_message missingCodes)), st)
    end.
Proof.
  intros Hok Hp. rewrite (addCourse_accepted req st Hok), Hp. reflexivity.
Qed.

Lemma create_hours_ok_false (req : Req.body) :
  create_hours_ok req = false <->
  not_numeric req = true \/
  out_of_range (JS.parseFloat (Req.lectureCreditHours req))
               (JS.parseFloat (Req.labCreditHours req)) = true.
Proof.
  unfold create_hours_ok.
  rewrite andb_false_iff, !negb_false_iff. tauto.
Qed.

(** The answers of [addCourse] on credit hours it refuses, on the handler's
    own comparisons. *)
Lemma addCourse_rejects (req : Req.body) (st : Db.Store) :
  let lecture := JS.parseFloat (Req.lectureCreditHours req) in
  let lab := JS.parseFloat (Req.labCreditHours req) in
  let answer := addCourse req st in
  (status (fst answer) = 400 /\ snd answer = st <->
     (JS.isNaN lecture = true \/ JS.isNaN lab = true) \/
     (JS.lt lecture 1%float = true \/ JS.gt lecture 3%float = true) \/
     (JS.lt lab 0%float = true \/ JS.gt lab 1%float = true))
  /\ (status (fst answer) = 400 -> snd answer = st)
  /\ (JS.isNaN lecture = true \/ JS.isNaN lab = true ->
      fst answer = mkResponse 400 (Message "Invalid credit hours, must be a number"))
  /\ (JS.isNaN lecture = false -> JS.isNaN lab = false ->
      out_of_range lecture lab = true ->
      fst answer = mkResponse 400 (Message "Invalid credit hours range")).
Proof.
  intros lecture lab answer.
  assert (Hnn : not_numeric req = true <->
                JS.isNaN lecture = true \/ JS.isNaN lab = true).
  { unfold not_numeric. fold lecture lab. apply orb_true_iff. }
  assert (Hor : out_of_range lecture lab = true <->
                (JS.lt lecture 1%float = true \/ JS.gt lecture 3%float = true) \/
                (JS.lt lab 0%float = true \/ JS.gt lab 1%float = true)).
  { unfold out_of_range. rewrite !orb_true_iff. tauto. }
  destruct (create_hours_ok req) eqn:Hok.
  - (* accepted: the answer is 500, 404 or 201 *)
    pose proof (addCourse_accepted req st Hok) as Hacc. fold answer in Hacc.
    assert (Hst : status (fst answer) <> 400).
    { rewrite Hacc. destruct (not_a_string (Req.prerequisites req));
        [simpl; discriminate|].
      destruct (unresolved st (requested create_codes (Req.prerequisites req)));
        simpl; discriminate. }
    unfold create_hours_ok in Hok. apply andb_prop in Hok.
    destruct Hok as [Hn Hr]. apply negb_true_iff in Hn, Hr. fold lecture lab in Hr.
    split; [split | split; [| split]].
    + intros [H _]. contradiction.
    + intros [H | H].
      * apply Hnn in H. congruence.
      * apply Hor in H. congruence.
    + intro H. contradiction.
    + intro H. apply Hnn in H. congruence.
    + intros _ _ H. congruence.
  - apply create_hours_ok_false in Hok. fold lecture lab in Hok.
    destruct (not_numeric req) eqn:Hn.
    + pose proof (addCourse_not_numeric req st Hn) as E. fold answer in E.
      rewrite E. simpl.
      split; [split | split; [| split]]; auto.
      * intros _. left. now apply Hnn.
      * intros Hl Hb _. destruct (proj1 Hnn eq_refl); congruence.
    + destruct Hok as [Hok | Hok]; [discriminate|].
      pose proof (addCourse_out_of_range req st Hn Hok) as E. fold answer in E.
      rewrite E. simpl.
      split; [split | split; [| split]]; auto.
      * intros _. right. now apply Hor.
      * intro H. apply Hnn in H. discriminate.
Qed.

Lemma within_false (lo hi x : JS.number) :
  JS.isNaN lo = false -> JS.isNaN hi = false ->
  within lo hi x = false <->
  JS.isNaN x = true \/ JS.lt x lo = true \/ JS.gt x hi = true.
Proof.
  intros Hlo Hhi. rewrite <- negb_true_iff, (outside_interval lo hi x Hlo Hhi).
  rewrite !orb_true_iff. tauto.
Qed.

Lemma within_true (lo hi x : JS.number) :
  JS.isNaN lo = false -> JS.isNaN hi = false ->
  within lo hi x = true <->
  JS.isNaN x = false /\ JS.lt x lo = false /\ JS.gt x hi = false.
Proof.
  intros Hlo Hhi. pose proof (outside_interval lo hi x Hlo Hhi) as H.
  rewrite <- !orb_false_iff, orb_assoc, <- H, negb_false_iff. reflexivity.
Qed.

(** The requests [addCourse] accepts are those with lecture hours in [1,3]
    and lab hours in [0,1]. *)
Lemma create_hours_ok_within (req : Req.body) :
  create_hours_ok req = true <->
  within 1%float 3%float (JS.parseFloat (Req.lectureCreditHours req)) = true /\
  within 0%float 1%float (JS.parseFloat (Req.labCreditHours req)) = true.
Proof.
  rewrite (within_true 1%float 3%float _ eq_refl eq_refl),
    (within_true 0%float 1%float _ eq_refl eq_refl).
  unfold create_hours_ok, not_numeric, out_of_range.
  rewrite andb_true_iff, !negb_true_iff, !orb_false_iff. tauto.
Qed.

(** C2.  [addCourse] answers 400 and leaves the collection as it was exactly
    when a credit-hour field does not parse to a number, or the parsed
    lecture hours are outside [1,3], or the parsed lab hours are outside
    [0,1].  The test for a number comes first: a field that is not numeric
    gets the "must be a number" answer whatever the other field holds, and
    the "range" answer is given only when both fields are numbers. *)
Theorem addCourse_invalid_input (req : Req.body) (st : Db.Store) :
  let lecture := JS.parseFloat (Req.lectureCreditHours req) in
  let lab := JS.parseFloat (Req.labCreditHours req) in
  let answer := addCourse req st in
  (status (fst answer) = 400 /\ snd answer = st <->
     (JS.isNaN lecture = true \/ JS.isNaN lab = true) \/
     within 1%float 3%float lecture = false \/
     within 0%float 1%float lab = false)
  /\ (JS.isNaN lecture = true \/ JS.isNaN lab = true ->
      answer = (mkResponse 400 (Message "Invalid credit hours, must be a number"), st))
  /\ (JS.isNaN lecture = false -> JS.isNaN lab = false ->
      within 1%float 3%float lecture = false \/ within 0%float 1%float lab = false ->
      answer = (mkResponse 400 (Message "Invalid credit hours range"), st)).
Proof.
  intros lecture lab answer.
  destruct (addCourse_rejects req st) as [Hiff [Hst [Hnum Hrange]]].
  fold lecture lab answer in Hiff, Hst, Hnum, Hrange.
  assert (W1 := within_false 1%float 3%float lecture eq_refl eq_refl).
  assert (W0 := within_false 0%float 1%float lab eq_refl eq_refl).
  clearbody lecture lab answer.
  split; [| split].
  - rewrite Hiff, W1, W0. clear. tauto.
  - intro H. specialize (Hnum H).
    assert (E : status (fst answer) = 400) by now rewrite Hnum.
    rewrite (surjective_pairing answer), Hnum, (Hst E). reflexivity.
  - intros Hl Hb H.
    assert (Hout : out_of_range lecture lab = true).
    { unfold out_of_range. rewrite !orb_true_iff.
      rewrite W1, W0, Hl, Hb in H. clear - H.
      destruct H as [[H | H] | [H | H]]; try discriminate; tauto. }
    specialize (Hrange Hl Hb Hout).
    assert (E : status (fst answer) = 400) by now rewrite Hrange.
    rewrite (surjective_pairing answer), Hrange, (Hst E). reflexivity.
Qed.

(** C3.  For a request with a non-empty prerequisites string whose credit
    hours were accepted.  The string is cut at its commas: the pieces joined
    with commas give the string back, and no piece holds a comma.  The
    candidates are the pieces trimmed: each without the white space around
    it, ASCII or not, and with none left at either end.  If some candidate
    is the code of no course, the answer is 404, its message lists exactly
    those candidates joined with a comma, and the collection is as it was.
    If every candidate is the code of a course, the answer is 201 and the new
    document is appended to the collection with, as prerequisites, the
    identities of the courses whose code is a candidate. *)
Theorem addCourse_resolves_prerequisites
    (req : Req.body) (st : Db.Store) (p : string) :
  create_hours_ok req = true ->
  Req.prerequisites req = JS.VString p ->
  p <> "" ->
  let pieces := JS.split "," p in
  let codes := map JS.trim pieces in
  let absent := filter (fun code => negb (has_course st code)) codes in
  (JS.join "," pieces = p /\
   forall t, In t pieces -> occurs "," t = false /\ trimmed t (JS.trim t))
  /\
  (absent <> [] ->
     addCourse req st =
       (mkResponse 404
          (Message ("Prerequisite courses not found: " ++ JS.join ", " absent)), st))
  /\
  (absent = [] ->
     exists newCourse,
       addCourse req st =
         (mkResponse 201 (MessageCourse "Course added successfully" newCourse),
          Db.mkStore (Db.docs st ++ [newCourse]) (S (Db.next_id st)))
       /\ Db.prerequisites newCourse =
            map Db._id
                (filter (fun c => existsb (String.eqb (Db.code c)) codes) (Db.docs st))
       /\ (forall id, In id (Db.prerequisites newCourse) <->
                      exists c, In c (Db.docs st) /\ Db._id c = id /\ In (Db.code c) codes)).
Proof.
  intros Hok Hp Hne pieces codes absent.
  pose proof (addCourse_resolving req st p Hok Hp) as E.
  assert (Hreq : requested create_codes (JS.VString p) = codes)
    by now apply requested_string.
  assert (Hcreated : Db.prerequisites (created req st) = resolved_ids st codes).
  { unfold created. now rewrite Hp, Hreq. }
  rewrite Hreq in E. fold (unresolved st codes) in absent.
  split; [split | split].
  - apply join_split.
  - intros t Ht. split; [now apply (split_pieces "," p) | apply trim_trimmed].
  - intro Habs. rewrite E. fold absent.
    destruct absent as [|a l]; [contradiction | reflexivity].
  - intro Habs. fold absent in E. rewrite Habs in E.
    exists (created req st). split; [exact E | split; [exact Hcreated|]].
    intro id. rewrite Hcreated.
    unfold resolved_ids. rewrite in_map_iff. split.
    + intros [c [Hid Hin]]. apply resolved_In in Hin. exists c. tauto.
    + intros [c [Hin [Hid Hc]]]. exists c. split; [assumption|].
      apply resolved_In. tauto.
Qed.

(* ================================================================== *)
(** * The invariant of the collection *)
(* ================================================================== *)

Lemma wf_emptyStore : wf_store emptyStore.
Proof.
  split; simpl; constructor.
Qed.

Lemma wf_save (st : Db.Store) (c : Db.Course) :
  wf_store st -> Db._id c = Db.next_id st -> wf_store (Db.save c st).
Proof.
  intros [Hnd Hlt] Hid. unfold Db.save. split; simpl.
  - rewrite map_app. simpl.
    apply NoDup_app; [assumption | repeat constructor; auto |].
    intros id Hin [Heq | []]. subst id.
    apply in_map_iff in Hin. destruct Hin as [d [Hd Hin]].
    rewrite Forall_forall in Hlt. specialize (Hlt d Hin). lia.
  - apply Forall_app. split.
    + eapply Forall_impl; [|exact Hlt]. simpl. intros; lia.
    + constructor; [lia | constructor].
Qed.

Lemma findById_In (id : Db.ObjectId) (l : list Db.Course) (c : Db.Course) :
  Db.findById id l = Some c -> In c l /\ Db._id c = id.
Proof.
  unfold Db.findById. intro H. apply find_some in H.
  destruct H as [Hin Heq]. apply Nat.eqb_eq in Heq. auto.
Qed.

(** With unique identities, looking a course up by its identity finds it. *)
Lemma findById_unique (l : list Db.Course) (c : Db.Course) :
  NoDup (map Db._id l) -> In c l -> Db.findById (Db._id c) l = Some c.
Proof.
  unfold Db.findById. induction l as [|d l IH]; simpl; intros Hnd Hin; [contradiction|].
  inversion Hnd as [|x xs Hnotin Hnd']; subst.
  destruct Hin as [-> | Hin].
  - now rewrite Nat.eqb_refl.
  - destruct (Db._id d =? Db._id c)%nat eqn:E.
    + apply Nat.eqb_eq in E. exfalso. apply Hnotin. rewrite E. now apply in_map.
    + auto.
Qed.

Lemma findById_app (id : Db.ObjectId) (l l' : list Db.Course) (c : Db.Course) :
  Db.findById id l = Some c -> Db.findById id (l ++ l') = Some c.
Proof.
  unfold Db.findById. induction l as [|d l IH]; simpl; [discriminate|].
  destruct (Db._id d =? id)%nat; auto.
Qed.

(** Expansion gives every resolved course back: its code and name. *)
Lemma populate_resolved (st st' : Db.Store) (extra cs : list Db.Course) :
  NoDup (map Db._id (Db.docs st)) ->
  Db.docs st' = Db.docs st ++ extra ->
  (forall c, In c cs -> In c (Db.docs st)) ->
  flat_map (Db.populate_ref st') (map Db._id cs) = map to_ref cs.
Proof.
  intros Hnd Hdocs. induction cs as [|c cs IH]; simpl; intro Hsub; [reflexivity|].
  rewrite IH by auto. unfold Db.populate_ref at 1. rewrite Hdocs.
  rewrite (findById_app _ _ extra c); [reflexivity|].
  apply findById_unique; auto.
Qed.

Lemma NoDup_map_filter {A B} (f : A -> B) (g : A -> bool) (l : list A) :
  NoDup (map f l) -> NoDup (map f (filter g l)).
Proof.
  induction l as [|a l IH]; simpl; intro H; [constructor|].
  inversion H as [|x xs Hnotin Hnd]; subst.
  destruct (g a); simpl; auto.
  constructor; auto.
  intro Hin. apply Hnotin. apply in_map_iff in Hin.
  destruct Hin as [b [Hb Hin]]. apply filter_In in Hin.
  rewrite <- Hb. apply in_map. tauto.
Qed.

(** C10.  When every candidate of a non-empty prerequisites string resolves,
    the stored prerequisites hold no identity twice, however often a code is
    repeated in the string: each course whose code is a candidate has its
    identity there exactly once. *)
Theorem addCourse_prerequisites_once
    (req : Req.body) (st : Db.Store) (p : string) :
  wf_store st ->
  create_hours_ok req = true ->
  Req.prerequisites req = JS.VString p ->
  p <> "" ->
  unresolved st (create_codes p) = [] ->
  exists newCourse,
    addCourse req st =
      (mkResponse 201 (MessageCourse "Course added successfully" newCourse),
       Db.save newCourse st)
    /\ NoDup (Db.prerequisites newCourse)
    /\ (forall c, In c (Db.docs st) -> In (Db.code c) (create_codes p) ->
                  count_occ Nat.eq_dec (Db.prerequisites newCourse) (Db._id c) = 1).
Proof.
  intros [Hnd _] Hok Hp Hne Hres.
  pose proof (addCourse_resolving req st p Hok Hp) as E.
  assert (Hreq : requested create_codes (JS.VString p) = create_codes p)
    by now apply requested_string.
  assert (Hcreated : Db.prerequisites (created req st) = resolved_ids st (create_codes p)).
  { unfold created. now rewrite Hp, Hreq. }
  rewrite Hreq, Hres in E.
  assert (Hdistinct : NoDup (Db.prerequisites (created req st))).
  { rewrite Hcreated. unfold resolved_ids, resolved. now apply NoDup_map_filter. }
  exists (created req st). split; [exact E | split; [exact Hdistinct|]].
  intros c Hin Hc.
  apply NoDup_count_occ'; [exact Hdistinct|].
  rewrite Hcreated. unfold resolved_ids.
  apply in_map. apply resolved_In. tauto.
Qed.

(* ================================================================== *)
(** * getAllCourses after addCourse *)
(* ================================================================== *)

Lemma getAllCourses_lists (st : Db.Store) :
  getAllCourses st =
    (mkResponse 200 (Courses (map (Db.populate st) (Db.docs st))), st).
Proof. reflexivity. Qed.

Lemma fresh_identity (st : Db.Store) :
  wf_store st -> ~ In (Db.next_id st) (map Db._id (Db.docs st)).
Proof.
  intros [_ Hlt] Hin. apply in_map_iff in Hin. destruct Hin as [c [Hc Hin]].
  rewrite Forall_forall in Hlt. specialize (Hlt c Hin). lia.
Qed.

(** C7.  With courses of codes CS101 and CS102 in the collection, a request
    with accepted credit hours and prerequisites "CS101,CS102" is answered
    201; the listing that follows ends with the new course, under an identity
    no other course has, and its expanded prerequisites carry exactly the
    codes CS101 and CS102. *)
Theorem addCourse_getAllCourses_roundtrip (req : Req.body) (st : Db.Store) :
  wf_store st ->
  create_hours_ok req = true ->
  Req.prerequisites req = JS.VString "CS101,CS102" ->
  has_course st "CS101" = true ->
  has_course st "CS102" = true ->
  exists newCourse st' listed,
    addCourse req st =
      (mkResponse 201 (MessageCourse "Course added successfully" newCourse), st')
    /\ getAllCourses st' =
         (mkResponse 200
            (Courses (map (Db.populate st') (Db.docs st) ++ [listed])), st')
    /\ Db.p_id listed = Db._id newCourse
    /\ ~ In (Db._id newCourse) (map Db._id (Db.docs st))
    /\ (forall code,
          In code (map Db.ref_code (Db.p_prerequisites listed)) <->
          code = "CS101" \/ code = "CS102").
Proof.
  intros Hwf Hok Hp H1 H2.
  pose proof (addCourse_resolving req st _ Hok Hp) as E.
  assert (Hreq : requested create_codes (JS.VString "CS101,CS102") = ["CS101"; "CS102"])
    by reflexivity.
  assert (Hres : unresolved st ["CS101"; "CS102"] = []).
  { unfold unresolved. simpl. now rewrite H1, H2. }
  assert (Hcreated : Db.prerequisites (created req st) =
                     resolved_ids st ["CS101"; "CS102"]).
  { unfold created. now rewrite Hp, Hreq. }
  rewrite Hreq, Hres in E.
  set (newCourse := created req st) in *.
  set (st' := Db.save newCourse st) in *.
  exists newCourse, st', (Db.populate st' newCourse).
  split; [exact E | split; [| split; [reflexivity | split]]].
  - rewrite getAllCourses_lists. unfold st' at 2. simpl.
    now rewrite map_app.
  - now apply fresh_identity.
  - intro code. cbn [Db.populate Db.p_prerequisites]. rewrite Hcreated.
    unfold resolved_ids.
    rewrite (populate_resolved st st' [newCourse]); auto.
    + rewrite map_map. simpl. rewrite in_map_iff. split.
      * intros [c [Hc Hin]]. apply resolved_In in Hin.
        destruct Hin as [_ [Hin | [Hin | []]]]; rewrite <- Hc; auto.
      * intros [-> | ->].
        -- apply has_course_iff in H1. destruct H1 as [c [Hin Hc]].
           exists c. split; [assumption|]. apply resolved_In.
           rewrite Hc. simpl. auto.
        -- apply has_course_iff in H2. destruct H2 as [c [Hin Hc]].
           exists c. split; [assumption|]. apply resolved_In.
           rewrite Hc. simpl. auto.
    + apply Hwf.
    + intros c Hin. now apply resolved_In in Hin.
Qed.

(* ================================================================== *)
(** * updateCourse *)
(* ================================================================== *)

Lemma update_first_none (id : Db.ObjectId) (u : Db.Update) (l : list Db.Course) :
  Db.update_first id u l = None <-> ~ In id (map Db._id l).
Proof.
  induction l as [|c l IH]; simpl.
  - tauto.
  - destruct (Db._id c =? id)%nat eqn:E.
    + apply Nat.eqb_eq in E. split; [discriminate | intro H; exfalso; auto].
    + apply Nat.eqb_neq in E.
      destruct (Db.update_first id u l) as [[c' l']|].
      * split; [discriminate|]. intro H. exfalso.
        assert (Hn : ~ In id (map Db._id l)) by tauto.
        apply IH in Hn. discriminate.
      * split; [|reflexivity]. intros _ [H | H]; [auto|]. now apply IH in H.
Qed.

Lemma update_first_some (id : Db.ObjectId) (u : Db.Update) (l l' : list Db.Course)
    (c : Db.Course) :
  Db.update_first id u l = Some (c, l') ->
  (exists d, In d l /\ Db._id d = id /\ c = Db.apply_update u d) /\
  map Db._id l' = map Db._id l.
Proof.
  revert l'. induction l as [|d l IH]; simpl; intros l' H; [discriminate|].
  destruct (Db._id d =? id)%nat eqn:E.
  - apply Nat.eqb_eq in E. inversion H; subst. split.
    + exists d. auto.
    + reflexivity.
  - destruct (Db.update_first id u l) as [[c' l'']|]; [|discriminate].
    inversion H; subst. destruct (IH l'' eq_refl) as [[d' [Hin [Hid Hc]]] Hids].
    split.
    + exists d'. auto.
    + simpl. now rewrite Hids.
Qed.

Lemma updateCourse_rejected (courseId : Db.ObjectId) (req : Upd.body) (st : Db.Store) :
  update_hours_ok req = false ->
  updateCourse courseId req st = (mkResponse 400 (Message "Invalid credit hours"), st).
Proof.
  unfold update_hours_ok, out_of_range, updateCourse. intro H.
  apply negb_false_iff in H. now rewrite H.
Qed.

(** Past the check, [updateCourse] throws on a [prerequisites] value without
    [split], names the unresolved candidates, or goes on to the write, with
    the identities of the resolved courses. *)
Lemma updateCourse_accepted (courseId : Db.ObjectId) (req : Upd.body) (st : Db.Store) :
  update_hours_ok req = true ->
  updateCourse courseId req st =
    if not_a_string (Upd.prerequisites req)
    then (mkResponse 500 (Message "Error updating course"), st)
    else
      match unresolved st (requested update_codes (Upd.prerequisites req)) with
      | [] => write_update courseId req st
      | missingCodes => (mkResponse 404 (Message (not_found_message missingCodes)), st)
      end.
Proof.
  unfold update_hours_ok, out_of_range. intro H. apply negb_true_iff in H.
  unfold updateCourse. rewrite H.
  unfold write_update, update_of, requested, not_a_string.
  destruct (Upd.prerequisites req) as [| |b|x|p].
  - simpl. now rewrite resolved_ids_nil.
  - simpl. now rewrite resolved_ids_nil.
  - destruct b; simpl; [reflexivity | now rewrite resolved_ids_nil].
  - destruct (JS.ToBoolean (JS.VNumber x)); simpl;
      [reflexivity | now rewrite resolved_ids_nil].
  - cbn [JS.ToBoolean]. destruct (JS.truthy p) eqn:Hp.
    + fold (update_codes p). rewrite missing_unresolved, select_ids.
      destruct (unresolved st (update_codes p)) eqn:Hu; reflexivity.
    + simpl. now rewrite resolved_ids_nil.
Qed.

Lemma findByIdAndUpdate_absent (id : Db.ObjectId) (u : Db.Update) (st : Db.Store) :
  ~ In id (map Db._id (Db.docs st)) -> Db.findByIdAndUpdate id u st = (None, st).
Proof.
  intro H. unfold Db.findByIdAndUpdate.
  apply (update_first_none id u) in H. now rewrite H.
Qed.

(** What a 200 answer of the write tells. *)
Lemma write_update_200 (courseId : Db.ObjectId) (req : Upd.body) (st st' : Db.Store)
    (c : Db.Course) :
  write_update courseId req st =
    (mkResponse 200 (MessageCourse "Course updated successfully" c), st') ->
  exists lecture lab l,
    Db.cast_change (Upd.lectureCreditHours req) = Some lecture /\
    Db.cast_change (Upd.labCreditHours req) = Some lab /\
    Db.update_first courseId (update_of req st lecture lab) (Db.docs st) = Some (c, l) /\
    st' = Db.mkStore l (Db.next_id st).
Proof.
  unfold write_update.
  destruct (Db.cast_change (Upd.lectureCreditHours req)) as [lecture|]; [|discriminate].
  destruct (Db.cast_change (Upd.labCreditHours req)) as [lab|]; [|discriminate].
  unfold Db.findByIdAndUpdate.
  destruct (Db.update_first courseId _ (Db.docs st)) as [[d l]|] eqn:E; [|discriminate].
  intro H. injection H as Hd Hst. subst d st'. exists lecture, lab, l. auto.
Qed.

Lemma write_update_not_400 (courseId : Db.ObjectId) (req : Upd.body) (st : Db.Store) :
  status (fst (write_update courseId req st)) <> 400.
Proof.
  unfold write_update.
  destruct (Db.cast_change (Upd.lectureCreditHours req)) as [lecture|];
    [|simpl; discriminate].
  destruct (Db.cast_change (Upd.labCreditHours req)) as [lab|];
    [|simpl; discriminate].
  destruct (Db.findByIdAndUpdate courseId _ st) as [[c|] st']; simpl; discriminate.
Qed.

(** C5.  For a request with a non-empty prerequisites string that passed the
    credit-hour check.  The string is cut at its commas: the pieces joined
    with commas give the string back, and no piece holds a comma.  The
    candidates are the pieces as they stand, white space included.  If some
    piece is the code of no course (compared character by character), the
    answer is 404, its message lists exactly those pieces, and the
    collection is as it was.  If every piece is the code of a course, an
    update that succeeds stores the identities of the courses whose code is
    a piece. *)
Theorem updateCourse_resolves_raw_tokens
    (courseId : Db.ObjectId) (req : Upd.body) (st : Db.Store) (p : string) :
  update_hours_ok req = true ->
  Upd.prerequisites req = JS.VString p ->
  p <> "" ->
  let tokens := JS.split "," p in
  let absent := filter (fun t => negb (has_course st t)) tokens in
  (JS.join "," tokens = p /\ forall t, In t tokens -> occurs "," t = false)
  /\
  (absent <> [] ->
     updateCourse courseId req st =
       (mkResponse 404
          (Message ("Prerequisite courses not found: " ++ JS.join ", " absent)), st))
  /\
  (absent = [] ->
     forall updatedCourse st',
       updateCourse courseId req st =
         (mkResponse 200 (MessageCourse "Course updated successfully" updatedCourse), st') ->
       Db.prerequisites updatedCourse =
         map Db._id
             (filter (fun c => existsb (String.eqb (Db.code c)) tokens) (Db.docs st))).
Proof.
  intros Hok Hp Hne tokens absent.
  pose proof (updateCourse_accepted courseId req st Hok) as E.
  assert (Hreq : requested update_codes (Upd.prerequisites req) = tokens).
  { rewrite Hp. now apply requested_string. }
  rewrite Hreq in E. rewrite Hp in E at 1. cbn [not_a_string] in E.
  fold (unresolved st tokens) in absent. fold absent in E.
  split; [split | split].
  - apply join_split.
  - intros t Ht. now apply (split_pieces "," p).
  - intro Habs. rewrite E.
    destruct absent as [|a l]; [contradiction | reflexivity].
  - intros Habs updatedCourse st' Hup. rewrite Habs in E. rewrite E in Hup.
    destruct (write_update_200 _ _ _ _ _ Hup) as [lecture [lab [l [_ [_ [Hfirst _]]]]]].
    apply update_first_some in Hfirst.
    destruct Hfirst as [[d [_ [_ ->]]] _]. simpl. now rewrite Hreq.
Qed.

(** C9.  The order of [updateCourse]'s failures.  A request that fails the
    credit-hour check is answered 400, whatever its prerequisites and the
    identity it names.  A request that passes it is answered 500 when its
    prerequisites are a truthy value without [split], and 404 with the
    message that lists the unresolved candidates when it has an unresolved
    candidate, whatever identity it names, also one that no course has.
    Only a request whose candidates all resolve reaches the lookup by
    identity: for an identity that no course has it is then answered 404
    "Course not found" (500 if the store cannot cast a credit-hour value).
    In all these cases the collection is as it was. *)
Theorem updateCourse_error_precedence
    (courseId : Db.ObjectId) (req : Upd.body) (st : Db.Store) :
  let codes := requested update_codes (Upd.prerequisites req) in
  (update_hours_ok req = false ->
     updateCourse courseId req st =
       (mkResponse 400 (Message "Invalid credit hours"), st))
  /\
  (update_hours_ok req = true ->
   not_a_string (Upd.prerequisites req) = true ->
     updateCourse courseId req st =
       (mkResponse 500 (Message "Error updating course"), st))
  /\
  (update_hours_ok req = true ->
   unresolved st codes <> [] ->
     updateCourse courseId req st =
       (mkResponse 404
          (Message ("Prerequisite courses not found: " ++
                    JS.join ", " (unresolved st codes))), st))
  /\
  (update_hours_ok req = true ->
   not_a_string (Upd.prerequisites req) = false ->
   unresolved st codes = [] ->
   ~ In courseId (map Db._id (Db.docs st)) ->
     updateCourse courseId req st =
       match Db.cast_change (Upd.lectureCreditHours req),
             Db.cast_change (Upd.labCreditHours req) with
       | Some _, Some _ => (mkResponse 404 (Message "Course not found"), st)
       | _, _ => (mkResponse 500 (Message "Error updating course"), st)
       end).
Proof.
  intro codes. split; [apply updateCourse_rejected | split; [| split]].
  - intros Hok Hthrow. now rewrite (updateCourse_accepted courseId req st Hok), Hthrow.
  - intros Hok Hun. rewrite (updateCourse_accepted courseId req st Hok).
    assert (Hstr : not_a_string (Upd.prerequisites req) = false).
    { unfold codes, requested in Hun. unfold not_a_string.
      destruct (Upd.prerequisites req); try reflexivity; now contradiction Hun. }
    rewrite Hstr. fold codes.
    destruct (unresolved st codes); [contradiction | reflexivity].
  - intros Hok Hstr Hres Habsent.
    rewrite (updateCourse_accepted courseId req st Hok), Hstr. fold codes.
    rewrite Hres. unfold write_update.
    destruct (Db.cast_change (Upd.lectureCreditHours req)) as [lecture|];
      [|reflexivity].
    destruct (Db.cast_change (Upd.labCreditHours req)) as [lab|];
      [|reflexivity].
    now rewrite findByIdAndUpdate_absent.
Qed.

(* ================================================================== *)
(** * deleteCourse *)
(* ================================================================== *)

Lemma delete_first_none (id : Db.ObjectId) (l : list Db.Course) :
  Db.delete_first id l = None <-> ~ In id (map Db._id l).
Proof.
  induction l as [|c l IH]; simpl.
  - tauto.
  - destruct (Db._id c =? id)%nat eqn:E.
    + apply Nat.eqb_eq in E. split; [discriminate | intro H; exfalso; auto].
    + apply Nat.eqb_neq in E.
      destruct (Db.delete_first id l) as [[d l']|].
      * split; [discriminate|]. intro H. exfalso.
        assert (Hn : ~ In id (map Db._id l)) by tauto.
        apply IH in Hn. discriminate.
      * split; [|reflexivity]. intros _ [H | H]; [auto|]. now apply IH in H.
Qed.

Lemma filter_other_ids (id : Db.ObjectId) (l : list Db.Course) :
  ~ In id (map Db._id l) ->
  filter (fun d => negb (Db._id d =? id)%nat) l = l.
Proof.
  induction l as [|c l IH]; simpl; intro H; [reflexivity|].
  destruct (Db._id c =? id)%nat eqn:E.
  - apply Nat.eqb_eq in E. exfalso. auto.
  - simpl. rewrite IH; auto.
Qed.

(** With unique identities, deleting the first course of an identity leaves
    the courses of every other identity, in order. *)
Lemma delete_first_some (id : Db.ObjectId) (l : list Db.Course) :
  NoDup (map Db._id l) ->
  In id (map Db._id l) ->
  exists c, In c l /\ Db._id c = id /\
            Db.delete_first id l =
              Some (c, filter (fun d => negb (Db._id d =? id)%nat) l).
Proof.
  induction l as [|c l IH]; simpl; intros Hnd Hin; [contradiction|].
  inversion Hnd as [|x xs Hnotin Hnd']; subst.
  destruct (Db._id c =? id)%nat eqn:E.
  - apply Nat.eqb_eq in E. exists c. simpl.
    rewrite filter_other_ids by (rewrite <- E; assumption). auto.
  - apply Nat.eqb_neq in E. destruct Hin as [Hin | Hin]; [contradiction|].
    destruct (IH Hnd' Hin) as [d [Hd [Hid Hdel]]].
    exists d. rewrite Hdel. simpl. auto.
Qed.

(** C8.  In a collection with unique identities, [deleteCourse] of an
    identity that a course has is answered 200 and leaves the collection
    without that course and with every other course; [deleteCourse] of an
    identity that no course has is answered 404 and leaves the collection as
    it was.  So the same identity deleted twice is answered 200, then 404. *)
Theorem deleteCourse_present_absent (courseId : Db.ObjectId) (st : Db.Store) :
  wf_store st ->
  (In courseId (map Db._id (Db.docs st)) ->
     let st' := snd (deleteCourse courseId st) in
     fst (deleteCourse courseId st) =
       mkResponse 200 (Message "Course deleted successfully")
     /\ Db.docs st' =
          filter (fun d => negb (Db._id d =? courseId)%nat) (Db.docs st)
     /\ ~ In courseId (map Db._id (Db.docs st'))
     /\ deleteCourse courseId st' =
          (mkResponse 404 (Message "Course not found"), st'))
  /\
  (~ In courseId (map Db._id (Db.docs st)) ->
     deleteCourse courseId st =
       (mkResponse 404 (Message "Course not found"), st)).
Proof.
  intros [Hnd _].
  assert (Habsent : forall s, ~ In courseId (map Db._id (Db.docs s)) ->
            deleteCourse courseId s =
              (mkResponse 404 (Message "Course not found"), s)).
  { intros s H. unfold deleteCourse, Db.findByIdAndDelete.
    apply delete_first_none in H. now rewrite H. }
  split; [|apply Habsent].
  intros Hin st'.
  destruct (delete_first_some courseId (Db.docs st) Hnd Hin)
    as [c [Hc [Hid Hdel]]].
  assert (E : deleteCourse courseId st =
              (mkResponse 200 (Message "Course deleted successfully"),
               Db.mkStore (filter (fun d => negb (Db._id d =? courseId)%nat) (Db.docs st))
                          (Db.next_id st))).
  { unfold deleteCourse, Db.findByIdAndDelete. now rewrite Hdel. }
  assert (Hgone : ~ In courseId (map Db._id (Db.docs st'))).
  { unfold st'. rewrite E. simpl. rewrite in_map_iff.
    intros [d [Hd Hind]]. apply filter_In in Hind. destruct Hind as [_ Hneq].
    apply negb_true_iff, Nat.eqb_neq in Hneq. contradiction. }
  split; [now rewrite E | split; [unfold st'; now rewrite E | split]].
  - exact Hgone.
  - now apply Habsent.
Qed.

(* ================================================================== *)
(** * searchCourse *)
(* ================================================================== *)

Section SearchProperties.

Variable regex_i : string -> option (string -> bool).

Lemma searchCourse_refused (q : Req.query) (st : Db.Store) :
  Db.query_ok regex_i (build_query q) = false ->
  searchCourse regex_i q st =
    (mkResponse 500 (Message "Error searching for courses"), st).
Proof.
  intro H. unfold searchCourse, Db.find. now rewrite H.
Qed.

Lemma searchCourse_answer (q : Req.query) (st : Db.Store) :
  Db.query_ok regex_i (build_query q) = true ->
  searchCourse regex_i q st =
    (search_answer st (filter (Db.matches regex_i (build_query q)) (Db.docs st)), st).
Proof.
  intro H. unfold searchCourse, Db.find. rewrite H.
  destruct (filter _ (Db.docs st)); reflexivity.
Qed.

Lemma filter_nil_iff {A} (f : A -> bool) (l : list A) :
  filter f l = [] <-> forall a, In a l -> f a = false.
Proof.
  induction l as [|a l IH]; simpl.
  - split; [intros _ a [] | reflexivity].
  - destruct (f a) eqn:E.
    + split; [discriminate|]. intro H. specialize (H a (or_introl eq_refl)). congruence.
    + rewrite IH. split.
      * intros H b [<- | Hb]; auto.
      * intros H b Hb. auto.
Qed.

(** Every expanded prerequisite is the identity, code and name of a course
    of the collection whose identity the document holds. *)
Lemma populate_refs (st : Db.Store) (c : Db.Course) (r : Db.PrerequisiteRef) :
  In r (Db.p_prerequisites (Db.populate st c)) ->
  exists d, In d (Db.docs st) /\ In (Db._id d) (Db.prerequisites c) /\ r = to_ref d.
Proof.
  simpl. rewrite in_flat_map. intros [id [Hid Hr]].
  unfold Db.populate_ref in Hr.
  destruct (Db.findById id (Db.docs st)) as [d|] eqn:E; [|contradiction].
  destruct Hr as [<- | []]. apply findById_In in E. destruct E as [Hin <-].
  exists d. auto.
Qed.

Lemma findById_existsb (id : Db.ObjectId) (l : list Db.Course) :
  existsb (fun d => (Db._id d =? id)%nat) l =
    match Db.findById id l with Some _ => true | None => false end.
Proof.
  unfold Db.findById. induction l as [|d l IH]; simpl; [reflexivity|].
  destruct (Db._id d =? id)%nat; [reflexivity | exact IH].
Qed.

(** The expanded prerequisites are those of the stored identities that a
    course of the collection has, in the stored order. *)
Lemma populate_present (st : Db.Store) (c : Db.Course) :
  map Db.ref_id (Db.p_prerequisites (Db.populate st c)) =
    present st (Db.prerequisites c).
Proof.
  unfold present. simpl. induction (Db.prerequisites c) as [|id ids IH]; [reflexivity|].
  simpl. rewrite map_app, IH, findById_existsb. unfold Db.populate_ref.
  destruct (Db.findById id (Db.docs st)) as [d|] eqn:E; [|reflexivity].
  apply findById_In in E. destruct E as [_ <-]. reflexivity.
Qed.

(** ** The query the handler builds, read on the request *)








(** ** Where the handler's reading is the specification's *)

Hypothesis regex_literal : literal_law regex_i.





End SearchProperties.



(** ** Two engines that meet the law *)

Lemma substring_engine_literal : literal_law substring_engine.
Proof.
  intros p _ _. exists (contains_ci p). split; reflexivity.
Qed.



(** The second engine takes U+00E9 and U+00C9 for the same letter, and reads
    no operator. *)
Example folding_engine_folds :
  (exists test, folding_engine (JS.utf8 233) = Some test /\ test (JS.utf8 201) = true) /\
  contains_ci (JS.utf8 233) (JS.utf8 201) = false /\
  folding_engine "c.*" = None.
Proof.
  split; [eexists; split; [reflexivity | vm_compute; reflexivity] |].
  split; vm_compute; reflexivity.
Qed.



(* ================================================================== *)
(** * NaN and updateCourse's check *)
(* ================================================================== *)

(** Every comparison with [NaN] is false. *)
Lemma NaN_compares_false (x y : JS.number) :
  JS.isNaN x = true -> JS.lt x y = false /\ JS.gt x y = false.
Proof.
  unfold JS.isNaN, JS.lt, JS.gt. intro H. rewrite !ltb_spec.
  assert (E : Prim2SF x = S754_nan) by (unfold Prim2SF; now rewrite H).
  rewrite E. split; [reflexivity|].
  destruct (Prim2SF y); reflexivity.
Qed.

(** So a credit-hour value that is not a number passes [updateCourse]'s
    check as long as the other value is in range. *)
Lemma update_hours_ok_NaN (req : Upd.body) :
  JS.isNaN (JS.ToNumber (Upd.lectureCreditHours req)) = true ->
  JS.lt (JS.ToNumber (Upd.labCreditHours req)) 0%float = false ->
  JS.gt (JS.ToNumber (Upd.labCreditHours req)) 1%float = false ->
  update_hours_ok req = true.
Proof.
  intros Hnan Hlo Hhi. unfold update_hours_ok, out_of_range.
  destruct (NaN_compares_false _ 1%float Hnan) as [-> _].
  destruct (NaN_compares_false _ 3%float Hnan) as [_ ->].
  now rewrite Hlo, Hhi.
Qed.

Lemma updateCourse_accepted_not_400
    (courseId : Db.ObjectId) (req : Upd.body) (st : Db.Store) :
  update_hours_ok req = true ->
  status (fst (updateCourse courseId req st)) <> 400.
Proof.
  intro Hok. rewrite (updateCourse_accepted courseId req st Hok).
  destruct (not_a_string (Upd.prerequisites req)); [simpl; discriminate|].
  destruct (unresolved st (requested update_codes (Upd.prerequisites req)));
    [|simpl; discriminate].
  apply write_update_not_400.
Qed.

Lemma updateCourse_NaN_not_rejected
    (courseId : Db.ObjectId) (req : Upd.body) (st : Db.Store) :
  JS.isNaN (JS.ToNumber (Upd.lectureCreditHours req)) = true ->
  JS.lt (JS.ToNumber (Upd.labCreditHours req)) 0%float = false ->
  JS.gt (JS.ToNumber (Upd.labCreditHours req)) 1%float = false ->
  status (fst (updateCourse courseId req st)) <> 400.
Proof.
  intros Hnan Hlo Hhi.
  apply updateCourse_accepted_not_400. now apply update_hours_ok_NaN.
Qed.

(** C1, on the code.  The lecture hours "abc" are not a number.  [addCourse]
    answers 400 to them.  [updateCourse] lets them through its check and goes
    on to resolve the prerequisites: with the unknown code NOPE it answers
    404, and without prerequisites it does not answer 400 either. *)
Theorem updateCourse_lets_NaN_through :
  JS.isNaN (JS.ToNumber (JS.VString "abc")) = true /\
  addCourse (cs201 (JS.VString "abc") (JS.VString "0") (JS.VString "NOPE")) catalog =
    (mkResponse 400 (Message "Invalid credit hours, must be a number"), catalog) /\
  updateCourse 0 (to_update (cs201 (JS.VString "abc") (JS.VString "0") (JS.VString "NOPE")))
               catalog =
    (mkResponse 404 (Message "Prerequisite courses not found: NOPE"), catalog) /\
  status (fst (updateCourse 0 (to_update (cs201 (JS.VString "abc") (JS.VString "0")
                                                JS.VUndefined)) catalog))
    <> 400.
Proof.
  split; [| split; [| split]].
  - vm_compute. reflexivity.
  - vm_compute. reflexivity.
  - vm_compute. reflexivity.
  - apply updateCourse_NaN_not_rejected; vm_compute; reflexivity.
Qed.

(* ================================================================== *)
(** * The handlers keep the invariant *)
(* ================================================================== *)

(** The collection [addCourse] leaves: the one it found, or that one with
    the new document appended. *)
Lemma addCourse_store_cases (req : Req.body) (st : Db.Store) :
  snd (addCourse req st) = st \/
  snd (addCourse req st) = Db.save (created req st) st.
Proof.
  destruct (create_hours_ok req) eqn:Hok.
  - rewrite (addCourse_accepted req st Hok).
    destruct (not_a_string (Req.prerequisites req)); [now left|].
    destruct (unresolved st (requested create_codes (Req.prerequisites req)));
      simpl; auto.
  - left. apply create_hours_ok_false in Hok.
    destruct (not_numeric req) eqn:Hn.
    + now rewrite (addCourse_not_numeric req st Hn).
    + destruct Hok as [Hok | Hok]; [discriminate|].
      now rewrite (addCourse_out_of_range req st Hn Hok).
Qed.

Lemma wf_addCourse (req : Req.body) (st : Db.Store) :
  wf_store st -> wf_store (snd (addCourse req st)).
Proof.
  intro Hwf. destruct (addCourse_store_cases req st) as [-> | ->]; [assumption|].
  now apply wf_save.
Qed.

Lemma wf_findByIdAndUpdate (id : Db.ObjectId) (u : Db.Update) (st : Db.Store) :
  wf_store st -> wf_store (snd (Db.findByIdAndUpdate id u st)).
Proof.
  intros [Hnd Hlt]. unfold Db.findByIdAndUpdate.
  destruct (Db.update_first id u (Db.docs st)) as [[c l]|] eqn:E; simpl;
    [|split; assumption].
  apply update_first_some in E. destruct E as [_ Hids].
  split; simpl; [now rewrite Hids|].
  apply Forall_forall. intros d Hd.
  assert (Hin : In (Db._id d) (map Db._id (Db.docs st)))
    by (rewrite <- Hids; now apply in_map).
  apply in_map_iff in Hin. destruct Hin as [e [He Hin]].
  rewrite Forall_forall in Hlt. rewrite <- He. now apply Hlt.
Qed.

(** The collection [updateCourse] leaves: the one it found, or that one with
    the course of the identity updated. *)
Lemma updateCourse_store_cases (courseId : Db.ObjectId) (req : Upd.body) (st : Db.Store) :
  snd (updateCourse courseId req st) = st \/
  exists u c l,
    Db.set_prerequisites u =
      resolved_ids st (requested update_codes (Upd.prerequisites req)) /\
    Db.update_first courseId u (Db.docs st) = Some (c, l) /\
    snd (updateCourse courseId req st) = Db.mkStore l (Db.next_id st).
Proof.
  destruct (update_hours_ok req) eqn:Hok;
    [|left; now rewrite (updateCourse_rejected courseId req st Hok)].
  rewrite (updateCourse_accepted courseId req st Hok).
  destruct (not_a_string (Upd.prerequisites req)); [now left|].
  destruct (unresolved st (requested update_codes (Upd.prerequisites req))); [|now left].
  unfold write_update.
  destruct (Db.cast_change (Upd.lectureCreditHours req)) as [lecture|]; [|now left].
  destruct (Db.cast_change (Upd.labCreditHours req)) as [lab|]; [|now left].
  unfold Db.findByIdAndUpdate.
  destruct (Db.update_first courseId _ (Db.docs st)) as [[c l]|] eqn:E; [|now left].
  right. eexists. exists c, l. split; [|split; [exact E | reflexivity]]. reflexivity.
Qed.

Lemma wf_updateCourse (courseId : Db.ObjectId) (req : Upd.body) (st : Db.Store) :
  wf_store st -> wf_store (snd (updateCourse courseId req st)).
Proof.
  intro Hwf.
  destruct (updateCourse_store_cases courseId req st)
    as [-> | [u [c [l [_ [E ->]]]]]]; [assumption|].
  pose proof (wf_findByIdAndUpdate courseId u st Hwf) as H.
  unfold Db.findByIdAndUpdate in H. now rewrite E in H.
Qed.

Lemma wf_deleteCourse (courseId : Db.ObjectId) (st : Db.Store) :
  wf_store st -> wf_store (snd (deleteCourse courseId st)).
Proof.
  intros [Hnd Hlt]. unfold deleteCourse, Db.findByIdAndDelete.
  destruct (Db.delete_first courseId (Db.docs st)) as [[c l]|] eqn:E; simpl;
    [|split; assumption].
  assert (Hin : In courseId (map Db._id (Db.docs st))).
  { destruct (in_dec Nat.eq_dec courseId (map Db._id (Db.docs st))) as [H|H];
      [assumption|]. apply delete_first_none in H. congruence. }
  destruct (delete_first_some courseId (Db.docs st) Hnd Hin) as [d [_ [_ Hdel]]].
  rewrite Hdel in E. inversion E; subst. split; simpl.
  - now apply NoDup_map_filter.
  - apply Forall_forall. intros e He. apply filter_In in He.
    rewrite Forall_forall in Hlt. now apply Hlt.
Qed.

Lemma wf_catalog : wf_store catalog.
Proof.
  split; simpl.
  - repeat constructor; simpl; intuition discriminate.
  - repeat constructor.
Qed.

(* ================================================================== *)
(** * The properties on the catalog *)
(* ================================================================== *)

(** Prerequisites " CS101<U+00A0> , CS202 " where no course has the code
    CS202: both pieces lose the white space at both their ends, and CS202 is
    named as missing. *)
Lemma addCourse_resolves_prerequisites_witness :
  create_hours_ok (cs201 (JS.VString "3") (JS.VString "1")
                         (JS.VString spaced_CS101_CS202)) = true /\
  spaced_CS101_CS202 <> "" /\
  JS.split "," spaced_CS101_CS202 = [(" CS101" ++ NBSP ++ " ")%string; " CS202 "] /\
  map JS.trim (JS.split "," spaced_CS101_CS202) = ["CS101"; "CS202"] /\
  addCourse (cs201 (JS.VString "3") (JS.VString "1") (JS.VString spaced_CS101_CS202))
            catalog =
    (mkResponse 404 (Message "Prerequisite courses not found: CS202"), catalog).
Proof.
  assert (Hok : create_hours_ok
            (cs201 (JS.VString "3") (JS.VString "1")
                   (JS.VString spaced_CS101_CS202)) = true)
    by (vm_compute; reflexivity).
  assert (Hne : spaced_CS101_CS202 <> "") by (intro H; vm_compute in H; discriminate).
  split; [exact Hok | split; [exact Hne | split; [vm_compute; reflexivity |
    split; [vm_compute; reflexivity|]]]].
  destruct (addCourse_resolves_prerequisites _ catalog spaced_CS101_CS202 Hok eq_refl Hne)
    as [_ [Hmissing _]].
  rewrite (Hmissing ltac:(vm_compute; discriminate)).
  vm_compute. reflexivity.
Defined.

(** Prerequisites "CS101,CS101": the identity of CS101 is stored once. *)
Lemma addCourse_prerequisites_once_witness :
  wf_store catalog /\
  create_hours_ok (cs201 (JS.VString "3") (JS.VString "1") (JS.VString "CS101,CS101")) = true /\
  create_codes "CS101,CS101" = ["CS101"; "CS101"] /\
  unresolved catalog (create_codes "CS101,CS101") = [] /\
  exists newCourse,
    addCourse (cs201 (JS.VString "3") (JS.VString "1") (JS.VString "CS101,CS101")) catalog =
      (mkResponse 201 (MessageCourse "Course added successfully" newCourse),
       Db.save newCourse catalog)
    /\ NoDup (Db.prerequisites newCourse)
    /\ count_occ Nat.eq_dec (Db.prerequisites newCourse) (Db._id cs101) = 1.
Proof.
  assert (Hok : create_hours_ok
            (cs201 (JS.VString "3") (JS.VString "1") (JS.VString "CS101,CS101")) = true)
    by (vm_compute; reflexivity).
  assert (Hres : unresolved catalog (create_codes "CS101,CS101") = [])
    by (vm_compute; reflexivity).
  split; [exact wf_catalog | split; [exact Hok | split; [vm_compute; reflexivity |
    split; [exact Hres|]]]].
  destruct (addCourse_prerequisites_once _ catalog "CS101,CS101"
              wf_catalog Hok eq_refl ltac:(discriminate) Hres)
    as [newCourse [E [Hnd Hcount]]].
  exists newCourse. split; [exact E | split; [exact Hnd|]].
  apply Hcount; [simpl; auto | vm_compute; auto].
Defined.

(** Prerequisites "CS101,CS102" on the catalog, which has both courses. *)
Lemma addCourse_getAllCourses_roundtrip_witness :
  wf_store catalog /\
  has_course catalog "CS101" = true /\
  has_course catalog "CS102" = true /\
  exists newCourse st' listed,
    addCourse (cs201 (JS.VString "2.5") (JS.VNumber 0.5%float) (JS.VString "CS101,CS102"))
              catalog =
      (mkResponse 201 (MessageCourse "Course added successfully" newCourse), st')
    /\ getAllCourses st' =
         (mkResponse 200
            (Courses (map (Db.populate st') (Db.docs catalog) ++ [listed])), st')
    /\ Db.p_id listed = Db._id newCourse
    /\ ~ In (Db._id newCourse) (map Db._id (Db.docs catalog))
    /\ (forall code,
          In code (map Db.ref_code (Db.p_prerequisites listed)) <->
          code = "CS101" \/ code = "CS102").
Proof.
  split; [exact wf_catalog | split; [reflexivity | split; [reflexivity|]]].
  apply (addCourse_getAllCourses_roundtrip
           (cs201 (JS.VString "2.5") (JS.VNumber 0.5%float) (JS.VString "CS101,CS102"))
           catalog).
  - exact wf_catalog.
  - vm_compute. reflexivity.
  - reflexivity.
  - reflexivity.
  - reflexivity.
Defined.

(** Prerequisites "CS101, CS102" in an update: the second piece keeps its
    leading space and is the code of no course. *)
Lemma updateCourse_resolves_raw_tokens_witness :
  update_hours_ok (to_update (cs201 (JS.VString "3") (JS.VString "1")
                                    (JS.VString "CS101, CS102"))) = true /\
  JS.split "," "CS101, CS102" = ["CS101"; " CS102"] /\
  updateCourse 2 (to_update (cs201 (JS.VString "3") (JS.VString "1")
                                   (JS.VString "CS101, CS102"))) catalog =
    (mkResponse 404 (Message "Prerequisite courses not found:  CS102"), catalog).
Proof.
  assert (Hok : update_hours_ok
            (to_update (cs201 (JS.VString "3") (JS.VString "1")
                              (JS.VString "CS101, CS102"))) = true)
    by (vm_compute; reflexivity).
  split; [exact Hok | split; [reflexivity|]].
  destruct (updateCourse_resolves_raw_tokens 2 _ catalog "CS101, CS102"
              Hok eq_refl ltac:(discriminate)) as [_ [Hmissing _]].
  apply Hmissing. vm_compute. discriminate.
Defined.

(** Deleting CS102 from the catalog, twice. *)
Lemma deleteCourse_present_absent_witness :
  wf_store catalog /\
  In 1 (map Db._id (Db.docs catalog)) /\
  fst (deleteCourse 1 catalog) =
    mkResponse 200 (Message "Course deleted successfully") /\
  Db.docs (snd (deleteCourse 1 catalog)) = [cs101; ma201] /\
  fst (deleteCourse 1 (snd (deleteCourse 1 catalog))) =
    mkResponse 404 (Message "Course not found").
Proof.
  assert (Hin : In 1 (map Db._id (Db.docs catalog))) by (simpl; auto).
  split; [exact wf_catalog | split; [exact Hin|]].
  destruct (deleteCourse_present_absent 1 catalog wf_catalog) as [Hpresent _].
  destruct (Hpresent Hin) as [Hresp [Hdocs [_ Htwice]]].
  split; [exact Hresp | split].
  - rewrite Hdocs. reflexivity.
  - now rewrite Htwice.
Defined.

(** ** The specification's sample cases *)

Example create_trims_update_does_not :
  status (fst (addCourse (cs201 (JS.VString "3") (JS.VString "1") (JS.VString "CS101, CS102")) catalog)) = 201 /\
  status (fst (updateCourse 2 (to_update (cs201 (JS.VString "3") (JS.VString "1") (JS.VString "CS101, CS102"))) catalog)) = 404 /\
  status (fst (updateCourse 2 (to_update (cs201 (JS.VString "3") (JS.VString "1") (JS.VString "CS101,CS102"))) catalog)) = 200.
Proof.
  repeat split; vm_compute; reflexivity.
Qed.

(** White space is not only ASCII: a NO-BREAK SPACE after a code is trimmed
    away, and one before a number does not keep [parseFloat] from reading
    it. *)
Example create_trims_all_white_space :
  exists newCourse st',
    addCourse (cs201 (JS.VString (NBSP ++ "2")) (JS.VString "1")
                     (JS.VString spaced_CS101_CS102)) catalog =
      (mkResponse 201 (MessageCourse "Course added successfully" newCourse), st') /\
    Db.prerequisites newCourse = [0; 1] /\
    Db.lectureCreditHours newCourse = Some 2%float.
Proof.
  eexists. eexists. repeat split; vm_compute; reflexivity.
Qed.

Example create_keeps_parsed_hours :
  exists newCourse st',
    addCourse (cs201 (JS.VString "2.5") (JS.VString " 0.5 credits") JS.VUndefined) catalog =
      (mkResponse 201 (MessageCourse "Course added successfully" newCourse), st') /\
    Db.lectureCreditHours newCourse = Some 2.5%float /\
    Db.labCreditHours newCourse = Some 0.5%float /\
    Db.docs st' = Db.docs catalog ++ [newCourse].
Proof.
  eexists. eexists. repeat split; vm_compute; reflexivity.
Qed.

Example create_rejects_out_of_range :
  addCourse (cs201 (JS.VString "3.5") (JS.VString "1") JS.VUndefined) catalog =
    (mkResponse 400 (Message "Invalid credit hours range"), catalog) /\
  addCourse (cs201 (JS.VString "0.5") (JS.VString "1") JS.VUndefined) catalog =
    (mkResponse 400 (Message "Invalid credit hours range"), catalog) /\
  addCourse (cs201 (JS.VString "2") (JS.VString "-1") JS.VUndefined) catalog =
    (mkResponse 400 (Message "Invalid credit hours range"), catalog) /\
  addCourse (cs201 (JS.VString "2") (JS.VString "1.5") JS.VUndefined) catalog =
    (mkResponse 400 (Message "Invalid credit hours range"), catalog) /\
  addCourse (cs201 (JS.VString "two") (JS.VString "7") JS.VUndefined) catalog =
    (mkResponse 400 (Message "Invalid credit hours, must be a number"), catalog) /\
  addCourse (cs201 JS.VUndefined (JS.VString "1") JS.VUndefined) catalog =
    (mkResponse 400 (Message "Invalid credit hours, must be a number"), catalog).
Proof.
  repeat split; vm_compute; reflexivity.
Qed.

(** Prerequisites that are truthy and no string: [split] throws. *)
Example prerequisites_without_split :
  addCourse (cs201 (JS.VString "3") (JS.VString "1") (JS.VNumber 101%float)) catalog =
    (mkResponse 500 (Message "Error adding course"), catalog) /\
  addCourse (cs201 (JS.VString "3") (JS.VString "1") (JS.VBoolean true)) catalog =
    (mkResponse 500 (Message "Error adding course"), catalog) /\
  updateCourse 2 (to_update (cs201 (JS.VString "3") (JS.VString "1") (JS.VBoolean true)))
               catalog =
    (mkResponse 500 (Message "Error updating course"), catalog) /\
  status (fst (addCourse (cs201 (JS.VString "3") (JS.VString "1") (JS.VNumber 0%float))
                         catalog)) = 201 /\
  status (fst (addCourse (cs201 (JS.VString "3") (JS.VString "1") JS.VNull) catalog)) = 201.
Proof.
  repeat split; vm_compute; reflexivity.
Qed.

(** [updateCourse] compares what [Number] makes of the hours, also of a
    hexadecimal or binary literal, and the store keeps that number. *)
Example update_reads_other_radices :
  JS.ToNumber (JS.VString "0x12") = 18%float /\
  JS.ToNumber (JS.VString "0x2") = 2%float /\
  JS.ToNumber (JS.VString "0b11") = 3%float /\
  updateCourse 2 (to_update (cs201 (JS.VString "0x12") (JS.VString "1") (JS.VString "NOPE")))
               catalog =
    (mkResponse 400 (Message "Invalid credit hours"), catalog) /\
  status (fst (updateCourse 2 (to_update (cs201 (JS.VString "0x2") (JS.VString "1")
                                                JS.VUndefined)) catalog)) = 200 /\
  Db.castNumber (JS.VString "0b11") = Some (Some 3%float).
Proof.
  repeat split; vm_compute; reflexivity.
Qed.

Example update_unknown_identity :
  updateCourse 9 (to_update (cs201 (JS.VString "3") (JS.VString "1") JS.VUndefined)) catalog =
    (mkResponse 404 (Message "Course not found"), catalog) /\
  updateCourse 9 (to_update (cs201 (JS.VString "3") (JS.VString "1") (JS.VString "NOPE")))
               catalog =
    (mkResponse 404 (Message "Prerequisite courses not found: NOPE"), catalog).
Proof.
  split; vm_compute; reflexivity.
Qed.

Example search_department_cs :
  searchCourse folding_engine
    (Req.mkQuery None None (Some "cs") None None None None None) catalog =
    (mkResponse 200 (Courses (map (Db.populate catalog) [cs101; cs102])), catalog).
Proof.
  vm_compute. reflexivity.
Qed.

Example search_no_match :
  searchCourse folding_engine
    (Req.mkQuery (Some "PH") None None None None None None None) catalog =
    (mkResponse 404 (Message "No courses found matching the criteria"), catalog).
Proof.
  vm_compute. reflexivity.
Qed.

(** A pattern the engine does not compile, and a bound without a number. *)
Example search_refused :
  searchCourse folding_engine
    (Req.mkQuery (Some "CS(") None None None None None None None) catalog =
    (mkResponse 500 (Message "Error searching for courses"), catalog) /\
  forall regex_i,
    searchCourse regex_i (lecture_between (Some "two") None) catalog =
      (mkResponse 500 (Message "Error searching for courses"), catalog).
Proof.
  split; [|intro regex_i]; vm_compute; reflexivity.
Qed.

(** The text filters are patterns: with an engine that reads the point as
    any character, the code filter "CS." finds CS101 and CS102, though no
    code contains "CS." as a substring. *)
Example search_reads_patterns
    (regex_i : string -> option (string -> bool)) (test : string -> bool) :
  regex_i "CS." = Some test ->
  test "CS101" = true -> test "CS102" = true -> test "MA201" = false ->
  filter (spec_matches (Req.mkQuery (Some "CS.") None None None None None None None))
         (Db.docs catalog) = [] /\
  searchCourse regex_i (Req.mkQuery (Some "CS.") None None None None None None None)
               catalog =
    (mkResponse 200 (Courses (map (Db.populate catalog) [cs101; cs102])), catalog).
Proof.
  intros Hcompiles H1 H2 H3. split; [vm_compute; reflexivity|].
  unfold searchCourse, Db.find, Db.query_ok, build_query. simpl.
  rewrite Hcompiles. simpl. unfold Db.matches. simpl.
  rewrite Hcompiles, H1, H2, H3. reflexivity.
Qed.

(* ================================================================== *)
(** * Further properties of addCourse *)
(* ================================================================== *)

(** What a 201 answer of [addCourse] tells. *)
Lemma addCourse_created_inv (req : Req.body) (st st' : Db.Store) (c : Db.Course) :
  addCourse req st =
    (mkResponse 201 (MessageCourse "Course added successfully" c), st') ->
  create_hours_ok req = true /\
  not_a_string (Req.prerequisites req) = false /\
  unresolved st (requested create_codes (Req.prerequisites req)) = [] /\
  c = created req st /\ st' = Db.save c st.
Proof.
  intro H. destruct (create_hours_ok req) eqn:Hok.
  - rewrite (addCourse_accepted req st Hok) in H.
    destruct (not_a_string (Req.prerequisites req)); [discriminate|].
    destruct (unresolved st (requested create_codes (Req.prerequisites req)));
      [|discriminate].
    inversion H; subst. auto.
  - exfalso. apply create_hours_ok_false in Hok.
    destruct (not_numeric req) eqn:Hn.
    + rewrite (addCourse_not_numeric req st Hn) in H. discriminate.
    + destruct Hok as [Hok | Hok]; [discriminate|].
      rewrite (addCourse_out_of_range req st Hn Hok) in H. discriminate.
Qed.

(** X1.  [addCourse] changes the collection only when it answers 201, and then
    only by appending the new document, under the identity the store
    assigns next; its other answers are 400, 404 and 500, and with them the
    collection is as it was.  Once the credit hours are accepted, a truthy
    [prerequisites] that is not a string is answered 500. *)
Theorem addCourse_all_or_nothing (req : Req.body) (st : Db.Store) :
  ((exists newCourse,
      addCourse req st =
        (mkResponse 201 (MessageCourse "Course added successfully" newCourse),
         Db.mkStore (Db.docs st ++ [newCourse]) (S (Db.next_id st)))
      /\ Db._id newCourse = Db.next_id st)
   \/
   ((status (fst (addCourse req st)) = 400 \/ status (fst (addCourse req st)) = 404 \/
     status (fst (addCourse req st)) = 500)
    /\ snd (addCourse req st) = st))
  /\
  (create_hours_ok req = true -> not_a_string (Req.prerequisites req) = true ->
   addCourse req st = (mkResponse 500 (Message "Error adding course"), st)).
Proof.
  split.
  - destruct (create_hours_ok req) eqn:Hok.
    + rewrite (addCourse_accepted req st Hok).
      destruct (not_a_string (Req.prerequisites req)); [right; simpl; auto|].
      destruct (unresolved st (requested create_codes (Req.prerequisites req))).
      * left. exists (created req st). split; reflexivity.
      * right. simpl. auto.
    + right. apply create_hours_ok_false in Hok.
      destruct (not_numeric req) eqn:Hn.
      * rewrite (addCourse_not_numeric req st Hn). simpl. auto.
      * destruct Hok as [Hok | Hok]; [discriminate|].
        rewrite (addCourse_out_of_range req st Hn Hok). simpl. auto.
  - intros Hok Hthrow. now rewrite (addCourse_accepted req st Hok), Hthrow.
Qed.

Lemma requested_falsy (codes_of : string -> list string) (v : JS.value) :
  JS.ToBoolean v = false -> requested codes_of v = [] /\ not_a_string v = false.
Proof.
  unfold requested, not_a_string. destruct v as [| |b|x|p]; simpl; auto.
  now intros ->.
Qed.

Lemma unresolved_nil (st : Db.Store) : unresolved st [] = [].
Proof. reflexivity. Qed.

(** X2.  A request with lecture hours in [1,3], lab hours in [0,1] and no
    prerequisites (absent, empty or otherwise falsy) is answered 201: the
    stored document has the request's strings, the parsed hours and no
    prerequisite. *)
Theorem addCourse_valid_hours_stored (req : Req.body) (st : Db.Store) :
  within 1%float 3%float (JS.parseFloat (Req.lectureCreditHours req)) = true ->
  within 0%float 1%float (JS.parseFloat (Req.labCreditHours req)) = true ->
  JS.ToBoolean (Req.prerequisites req) = false ->
  let newCourse :=
    Db.mkCourse (Db.next_id st) (Req.code req) (Req.name req) []
                (Req.department req) (Req.semester req)
                (Some (JS.parseFloat (Req.lectureCreditHours req)))
                (Some (JS.parseFloat (Req.labCreditHours req))) in
  addCourse req st =
    (mkResponse 201 (MessageCourse "Course added successfully" newCourse),
     Db.mkStore (Db.docs st ++ [newCourse]) (S (Db.next_id st))).
Proof.
  intros Hl Hb Hp newCourse.
  assert (Hok : create_hours_ok req = true) by (apply create_hours_ok_within; auto).
  destruct (requested_falsy create_codes _ Hp) as [Hreq Hstr].
  rewrite (addCourse_accepted req st Hok), Hstr.
  unfold created. rewrite Hreq.
  rewrite unresolved_nil, resolved_ids_nil. reflexivity.
Qed.

Lemma addCourse_valid_hours_stored_witness :
  within 1%float 3%float (JS.parseFloat (JS.VString "2.5")) = true /\
  within 0%float 1%float (JS.parseFloat (JS.VNumber 0.5%float)) = true /\
  addCourse (cs201 (JS.VString "2.5") (JS.VNumber 0.5%float) (JS.VString "")) catalog =
    (mkResponse 201
       (MessageCourse "Course added successfully"
          (Db.mkCourse 3 "CS201" "Algorithms" [] "CS101-Dept" "Fall"
                       (Some 2.5%float) (Some 0.5%float))),
     Db.mkStore [cs101; cs102; ma201;
                 Db.mkCourse 3 "CS201" "Algorithms" [] "CS101-Dept" "Fall"
                             (Some 2.5%float) (Some 0.5%float)] 4).
Proof.
  split; [vm_compute; reflexivity | split; [vm_compute; reflexivity|]].
  apply (addCourse_valid_hours_stored
           (cs201 (JS.VString "2.5") (JS.VNumber 0.5%float) (JS.VString "")) catalog);
    vm_compute; reflexivity.
Defined.

Lemma resolved_same_codes (st : Db.Store) (codes1 codes2 : list string) :
  (forall code, In code codes1 <-> In code codes2) ->
  resolved st codes1 = resolved st codes2.
Proof.
  intro H. unfold resolved. apply filter_ext. intro c.
  apply eq_true_iff_eq. rewrite !existsb_eqb_In. apply H.
Qed.

Lemma unresolved_nil_iff (st : Db.Store) (codes : list string) :
  unresolved st codes = [] <-> forall code, In code codes -> has_course st code = true.
Proof.
  unfold unresolved. rewrite filter_nil_iff. split; intros H code Hin.
  - specialize (H code Hin). now apply negb_false_iff in H.
  - apply negb_false_iff. auto.
Qed.

(** X3.  The stored prerequisites depend on which codes the request names, not on
    their order or on repetitions: two accepted requests that name the same
    codes are both answered 201 or both answered 404, and on 201 they store
    the same prerequisites, in the order of the collection. *)
Theorem addCourse_prerequisites_order_independent
    (req1 req2 : Req.body) (st : Db.Store) (p1 p2 : string) :
  create_hours_ok req1 = true ->
  create_hours_ok req2 = true ->
  Req.prerequisites req1 = JS.VString p1 -> p1 <> "" ->
  Req.prerequisites req2 = JS.VString p2 -> p2 <> "" ->
  (forall code, In code (create_codes p1) <-> In code (create_codes p2)) ->
  status (fst (addCourse req1 st)) = status (fst (addCourse req2 st)) /\
  (forall c1 c2 st1 st2,
     addCourse req1 st =
       (mkResponse 201 (MessageCourse "Course added successfully" c1), st1) ->
     addCourse req2 st =
       (mkResponse 201 (MessageCourse "Course added successfully" c2), st2) ->
     Db.prerequisites c1 = Db.prerequisites c2 /\
     Db.prerequisites c1 = resolved_ids st (create_codes p1)).
Proof.
  intros Hok1 Hok2 Hp1 Hne1 Hp2 Hne2 Hsame.
  rewrite (addCourse_resolving req1 st p1 Hok1 Hp1),
    (addCourse_resolving req2 st p2 Hok2 Hp2).
  unfold created. rewrite Hp1, Hp2.
  rewrite (requested_string create_codes p1 Hne1), (requested_string create_codes p2 Hne2).
  assert (Hres : resolved_ids st (create_codes p1) = resolved_ids st (create_codes p2)).
  { unfold resolved_ids. now rewrite (resolved_same_codes st _ _ Hsame). }
  assert (Hun : unresolved st (create_codes p1) = [] <->
                unresolved st (create_codes p2) = []).
  { rewrite !unresolved_nil_iff. split; intros H code Hin; apply H, Hsame, Hin. }
  destruct (unresolved st (create_codes p1)) as [|a l],
           (unresolved st (create_codes p2)) as [|b m].
  - split; [reflexivity|]. intros c1 c2 st1 st2 E1 E2.
    inversion E1; subst. inversion E2; subst. simpl. auto.
  - exfalso. assert (E : b :: m = []) by now apply Hun. discriminate.
  - exfalso. assert (E : a :: l = []) by now apply Hun. discriminate.
  - split; [reflexivity|]. intros c1 c2 st1 st2 E1. discriminate.
Qed.

Lemma addCourse_prerequisites_order_independent_witness :
  (forall code, In code (create_codes "CS102,CS101") <->
                In code (create_codes spaced_CS101_CS102)) /\
  status (fst (addCourse (cs201 (JS.VString "3") (JS.VString "1")
                                (JS.VString "CS102,CS101")) catalog)) = 201 /\
  status (fst (addCourse (cs201 (JS.VString "2") (JS.VString "0")
                                (JS.VString spaced_CS101_CS102)) catalog)) = 201.
Proof.
  assert (Hsame : forall code, In code (create_codes "CS102,CS101") <->
                               In code (create_codes spaced_CS101_CS102)).
  { intro code.
    replace (create_codes "CS102,CS101") with ["CS102"; "CS101"]
      by (vm_compute; reflexivity).
    replace (create_codes spaced_CS101_CS102) with ["CS101"; "CS102"]
      by (vm_compute; reflexivity).
    simpl. tauto. }
  assert (Hne : spaced_CS101_CS102 <> "") by (intro H; vm_compute in H; discriminate).
  split; [exact Hsame|].
  destruct (addCourse_prerequisites_order_independent
              (cs201 (JS.VString "3") (JS.VString "1") (JS.VString "CS102,CS101"))
              (cs201 (JS.VString "2") (JS.VString "0") (JS.VString spaced_CS101_CS102))
              catalog "CS102,CS101" spaced_CS101_CS102)
    as [Hstatus _]; try (vm_compute; reflexivity); try discriminate;
    try exact Hsame; try exact Hne.
  rewrite <- Hstatus. split; vm_compute; reflexivity.
Defined.

Lemma create_codes_clean (p code : string) :
  In code (create_codes p) -> occurs "," code = false /\ no_outer_white_space code.
Proof.
  unfold create_codes. rewrite in_map_iff. intros [t [<- Hin]]. split.
  - apply occurs_trim. now apply (split_pieces "," p).
  - apply trim_trimmed.
Qed.

Lemma unique_identity (l : list Db.Course) (c d : Db.Course) :
  NoDup (map Db._id l) -> In c l -> In d l -> Db._id c = Db._id d -> c = d.
Proof.
  intros Hnd Hc Hd Hid.
  pose proof (findById_unique l c Hnd Hc) as E1.
  pose proof (findById_unique l d Hnd Hd) as E2.
  rewrite Hid in E1. congruence.
Qed.

(** X4.  A course becomes a prerequisite through [addCourse] only if its code has
    no comma and no white space character, ASCII or not, at either end: the
    candidates are pieces between commas, trimmed. *)
Theorem addCourse_prerequisite_codes_clean
    (req : Req.body) (st st' : Db.Store) (newCourse c : Db.Course) :
  wf_store st ->
  addCourse req st =
    (mkResponse 201 (MessageCourse "Course added successfully" newCourse), st') ->
  In c (Db.docs st) ->
  In (Db._id c) (Db.prerequisites newCourse) ->
  occurs "," (Db.code c) = false /\ no_outer_white_space (Db.code c).
Proof.
  intros [Hnd _] Hadd Hc Hin.
  destruct (addCourse_created_inv req st st' newCourse Hadd) as [_ [_ [_ [-> _]]]].
  simpl in Hin. unfold resolved_ids in Hin. apply in_map_iff in Hin.
  destruct Hin as [d [Hid Hd]]. apply resolved_In in Hd. destruct Hd as [Hd Hcode].
  assert (d = c) by (now apply (unique_identity (Db.docs st))). subst d.
  unfold requested in Hcode.
  destruct (Req.prerequisites req) as [| | | |p]; try contradiction.
  destruct (JS.truthy p); [|contradiction].
  now apply (create_codes_clean p).
Qed.

Lemma addCourse_prerequisite_codes_clean_witness :
  wf_store catalog /\
  In cs101 (Db.docs catalog) /\
  exists newCourse st',
    addCourse (cs201 (JS.VString "3") (JS.VString "1") (JS.VString spaced_CS101_CS102))
              catalog =
      (mkResponse 201 (MessageCourse "Course added successfully" newCourse), st') /\
    In (Db._id cs101) (Db.prerequisites newCourse) /\
    occurs "," (Db.code cs101) = false /\ no_outer_white_space (Db.code cs101).
Proof.
  split; [exact wf_catalog | split; [simpl; auto|]].
  eexists. eexists.
  assert (E : addCourse (cs201 (JS.VString "3") (JS.VString "1")
                               (JS.VString spaced_CS101_CS102)) catalog =
              (mkResponse 201
                 (MessageCourse "Course added successfully"
                    (created (cs201 (JS.VString "3") (JS.VString "1")
                                    (JS.VString spaced_CS101_CS102)) catalog)),
               Db.save (created (cs201 (JS.VString "3") (JS.VString "1")
                                       (JS.VString spaced_CS101_CS102)) catalog) catalog))
    by (vm_compute; reflexivity).
  split; [exact E | split; [vm_compute; auto|]].
  apply (addCourse_prerequisite_codes_clean _ catalog _ _ cs101 wf_catalog E).
  - simpl; auto.
  - vm_compute. auto.
Defined.

(** X5.  Deleting the course [addCourse] has just stored gives the documents of
    before back. *)
Theorem addCourse_then_deleteCourse
    (req : Req.body) (st st' : Db.Store) (newCourse : Db.Course) :
  wf_store st ->
  addCourse req st =
    (mkResponse 201 (MessageCourse "Course added successfully" newCourse), st') ->
  fst (deleteCourse (Db._id newCourse) st') =
    mkResponse 200 (Message "Course deleted successfully") /\
  Db.docs (snd (deleteCourse (Db._id newCourse) st')) = Db.docs st.
Proof.
  intros Hwf Hadd.
  destruct (addCourse_created_inv req st st' newCourse Hadd) as [_ [_ [_ [Hc ->]]]].
  assert (Hid : Db._id newCourse = Db.next_id st) by now rewrite Hc.
  pose proof (wf_save st newCourse Hwf Hid) as Hwf'.
  assert (Hin : In (Db._id newCourse) (map Db._id (Db.docs (Db.save newCourse st)))).
  { simpl. rewrite map_app. apply in_or_app. right. simpl. auto. }
  destruct (delete_first_some (Db._id newCourse) (Db.docs (Db.save newCourse st))
              (proj1 Hwf') Hin) as [d [_ [_ Hdel]]].
  unfold deleteCourse, Db.findByIdAndDelete. rewrite Hdel. simpl.
  split; [reflexivity|].
  rewrite filter_app. simpl. rewrite Nat.eqb_refl. simpl. rewrite app_nil_r.
  apply filter_other_ids. rewrite Hid. now apply fresh_identity.
Qed.

Lemma addCourse_then_deleteCourse_witness :
  wf_store catalog /\
  exists newCourse st',
    addCourse (cs201 (JS.VString "3") (JS.VString "1") (JS.VString "CS101")) catalog =
      (mkResponse 201 (MessageCourse "Course added successfully" newCourse), st') /\
    Db.docs (snd (deleteCourse (Db._id newCourse) st')) = Db.docs catalog.
Proof.
  split; [exact wf_catalog|]. eexists. eexists.
  assert (E : addCourse (cs201 (JS.VString "3") (JS.VString "1") (JS.VString "CS101"))
                        catalog =
              (mkResponse 201
                 (MessageCourse "Course added successfully"
                    (created (cs201 (JS.VString "3") (JS.VString "1") (JS.VString "CS101"))
                             catalog)),
               Db.save (created (cs201 (JS.VString "3") (JS.VString "1")
                                       (JS.VString "CS101")) catalog) catalog))
    by (vm_compute; reflexivity).
  split; [exact E|].
  apply (addCourse_then_deleteCourse _ catalog _ _ wf_catalog E).
Defined.

(* ================================================================== *)
(** * References between courses *)
(* ================================================================== *)

Lemma resolved_ids_present (st : Db.Store) (codes : list string) (id : Db.ObjectId) :
  In id (resolved_ids st codes) -> In id (map Db._id (Db.docs st)).
Proof.
  unfold resolved_ids. rewrite !in_map_iff. intros [c [Hid Hc]].
  apply resolved_In in Hc. exists c. tauto.
Qed.

(** X6.  [addCourse] keeps referential integrity: the prerequisites it stores are
    identities of courses of the collection. *)
Theorem addCourse_keeps_references (req : Req.body) (st : Db.Store) :
  refs_ok st -> refs_ok (snd (addCourse req st)).
Proof.
  intro Hrefs.
  destruct (addCourse_store_cases req st) as [-> | ->]; [assumption|].
  intros d id Hd Hin. simpl in *. rewrite map_app. apply in_or_app. left.
  apply in_app_or in Hd. destruct Hd as [Hd | [<- | []]].
  - now apply (Hrefs d).
  - simpl in Hin. now apply resolved_ids_present in Hin.
Qed.

Lemma refs_ok_catalog : refs_ok catalog.
Proof.
  intros c id Hc Hin. simpl in Hc.
  destruct Hc as [<- | [<- | [<- | []]]]; simpl in Hin; try contradiction.
  destruct Hin as [<- | []]. simpl. auto.
Qed.

Lemma addCourse_keeps_references_witness :
  refs_ok catalog /\
  refs_ok (snd (addCourse (cs201 (JS.VString "3") (JS.VString "1")
                                 (JS.VString "CS102, MA201")) catalog)).
Proof.
  split; [exact refs_ok_catalog|].
  apply addCourse_keeps_references. exact refs_ok_catalog.
Defined.

Lemma update_first_In (id : Db.ObjectId) (u : Db.Update) (l l' : list Db.Course)
    (c d : Db.Course) :
  Db.update_first id u l = Some (c, l') -> In d l' -> In d l \/ d = c.
Proof.
  revert l'. induction l as [|e l IH]; simpl; intros l' H Hd; [discriminate|].
  destruct (Db._id e =? id)%nat.
  - inversion H; subst. destruct Hd as [<- | Hd]; auto.
  - destruct (Db.update_first id u l) as [[c' l'']|]; [|discriminate].
    inversion H; subst. destruct Hd as [<- | Hd]; [auto|].
    destruct (IH l'' eq_refl Hd); auto.
Qed.

Lemma update_first_findById (id : Db.ObjectId) (u : Db.Update) (l l' : list Db.Course)
    (c : Db.Course) :
  Db.update_first id u l = Some (c, l') -> Db.findById id l' = Some c.
Proof.
  unfold Db.findById. revert l'.
  induction l as [|e l IH]; simpl; intros l' H; [discriminate|].
  destruct (Db._id e =? id)%nat eqn:E.
  - inversion H; subst. simpl. now rewrite E.
  - destruct (Db.update_first id u l) as [[c' l'']|]; [|discriminate].
    inversion H; subst. simpl. rewrite E. now apply IH.
Qed.

(** X7.  [updateCourse] keeps referential integrity: the prerequisites it
    stores are identities of courses of the collection, and it changes no
    identity. *)
Theorem updateCourse_keeps_references
    (courseId : Db.ObjectId) (req : Upd.body) (st : Db.Store) :
  refs_ok st -> refs_ok (snd (updateCourse courseId req st)).
Proof.
  intro Hrefs.
  destruct (updateCourse_store_cases courseId req st)
    as [-> | [u [c [l [Hu [E ->]]]]]]; [assumption|].
  intros d id Hd Hin. simpl in *.
  destruct (update_first_some _ _ _ _ _ E) as [[e [_ [_ Hc]]] Hids].
  rewrite Hids.
  destruct (update_first_In _ _ _ _ _ d E Hd) as [Hold | ->].
  - now apply (Hrefs d).
  - subst c. simpl in Hin. rewrite Hu in Hin. now apply resolved_ids_present in Hin.
Qed.

Lemma updateCourse_keeps_references_witness :
  refs_ok catalog /\
  refs_ok (snd (updateCourse 0 (to_update (cs201 (JS.VString "3") (JS.VString "1")
                                                 (JS.VString "CS102,MA201")))
                             catalog)).
Proof.
  split; [exact refs_ok_catalog|].
  apply updateCourse_keeps_references. exact refs_ok_catalog.
Defined.

(** X8.  [deleteCourse] does not keep referential integrity: it removes the
    course and touches no other
    document, so a course that held the deleted identity as a prerequisite
    still holds it, and the identity is now that of no course. *)
Theorem deleteCourse_leaves_reference
    (courseId : Db.ObjectId) (st : Db.Store) (c : Db.Course) :
  wf_store st ->
  In courseId (map Db._id (Db.docs st)) ->
  In c (Db.docs st) ->
  Db._id c <> courseId ->
  In courseId (Db.prerequisites c) ->
  let st' := snd (deleteCourse courseId st) in
  In c (Db.docs st') /\
  ~ In courseId (map Db._id (Db.docs st')) /\
  ~ refs_ok st'.
Proof.
  intros [Hnd _] Hin Hc Hneq Href st'.
  destruct (delete_first_some courseId (Db.docs st) Hnd Hin) as [d [_ [_ Hdel]]].
  assert (Hdocs : Db.docs st' =
                  filter (fun e => negb (Db._id e =? courseId)%nat) (Db.docs st)).
  { unfold st', deleteCourse, Db.findByIdAndDelete. now rewrite Hdel. }
  assert (Hkept : In c (Db.docs st')).
  { rewrite Hdocs. apply filter_In. split; [assumption|].
    apply negb_true_iff. now apply Nat.eqb_neq. }
  assert (Hgone : ~ In courseId (map Db._id (Db.docs st'))).
  { rewrite Hdocs, in_map_iff. intros [e [He Hf]]. apply filter_In in Hf.
    destruct Hf as [_ Hf]. apply negb_true_iff, Nat.eqb_neq in Hf. contradiction. }
  split; [exact Hkept | split; [exact Hgone|]].
  intro Hrefs. apply Hgone. now apply (Hrefs c).
Qed.

Lemma deleteCourse_leaves_reference_witness :
  wf_store catalog /\ refs_ok catalog /\
  In cs102 (Db.docs (snd (deleteCourse 0 catalog))) /\
  ~ In 0 (map Db._id (Db.docs (snd (deleteCourse 0 catalog)))) /\
  ~ refs_ok (snd (deleteCourse 0 catalog)).
Proof.
  split; [exact wf_catalog | split; [exact refs_ok_catalog|]].
  apply (deleteCourse_leaves_reference 0 catalog cs102 wf_catalog); simpl; auto.
Defined.

(* ================================================================== *)
(** * Further properties of updateCourse *)
(* ================================================================== *)

(** With unique identities, the update reaches the one course of the
    identity and leaves every other document where it is. *)
Lemma update_first_replaced (id : Db.ObjectId) (u : Db.Update) (l : list Db.Course) :
  NoDup (map Db._id l) ->
  In id (map Db._id l) ->
  exists d, In d l /\ Db._id d = id /\
            Db.update_first id u l = Some (Db.apply_update u d, replaced id u l).
Proof.
  unfold replaced.
  induction l as [|c l IH]; simpl; intros Hnd Hin; [contradiction|].
  inversion Hnd as [|x xs Hnotin Hnd']; subst.
  destruct (Db._id c =? id)%nat eqn:E.
  - apply Nat.eqb_eq in E. exists c. split; [auto | split; [exact E|]].
    assert (Hrest : map (fun e => if (Db._id e =? id)%nat then Db.apply_update u e else e) l
                    = map (fun e => e) l).
    { apply map_ext_in. intros e He.
      destruct (Db._id e =? id)%nat eqn:Ee; [|reflexivity].
      apply Nat.eqb_eq in Ee. exfalso. apply Hnotin. rewrite E, <- Ee. now apply in_map. }
    now rewrite Hrest, map_id.
  - apply Nat.eqb_neq in E. destruct Hin as [Hin | Hin]; [contradiction|].
    destruct (IH Hnd' Hin) as [d [Hd [Hid Hup]]].
    exists d. rewrite Hup. auto.
Qed.

(** X9.  A successful update: for the course of an identity of the collection,
    credit hours that pass the check and the store's cast, and candidates
    that all resolve, [updateCourse] answers 200 with that course changed:
    each of code, name, department, semester and the credit hours is the
    request's where the request gives it and the course's own where the
    request leaves it out, and the prerequisites are the resolved ones.  A
    lookup by the identity afterwards finds the updated course; every other
    document, the order of the documents and the identities are as before. *)
Theorem updateCourse_replaces_fields
    (req : Upd.body) (st : Db.Store) (course : Db.Course)
    (lecture lab : Db.change (option JS.number)) :
  wf_store st ->
  In course (Db.docs st) ->
  update_hours_ok req = true ->
  not_a_string (Upd.prerequisites req) = false ->
  unresolved st (requested update_codes (Upd.prerequisites req)) = [] ->
  Db.cast_change (Upd.lectureCreditHours req) = Some lecture ->
  Db.cast_change (Upd.labCreditHours req) = Some lab ->
  let courseId := Db._id course in
  let updatedCourse :=
    Db.mkCourse courseId
      (match Upd.code req with Some code => code | None => Db.code course end)
      (match Upd.name req with Some name => name | None => Db.name course end)
      (resolved_ids st (requested update_codes (Upd.prerequisites req)))
      (match Upd.department req with Some d => d | None => Db.department course end)
      (match Upd.semester req with Some s => s | None => Db.semester course end)
      (match lecture with Some hours => hours | None => Db.lectureCreditHours course end)
      (match lab with Some hours => hours | None => Db.labCreditHours course end) in
  exists st',
    updateCourse courseId req st =
      (mkResponse 200 (MessageCourse "Course updated successfully" updatedCourse), st')
    /\ map Db._id (Db.docs st') = map Db._id (Db.docs st)
    /\ Db.next_id st' = Db.next_id st
    /\ Db.findById courseId (Db.docs st') = Some updatedCourse
    /\ (forall d, Db._id d <> courseId -> (In d (Db.docs st') <-> In d (Db.docs st))).
Proof.
  intros [Hnd Hlt] Hcourse Hok Hstr Hres Hl Hb courseId updatedCourse.
  assert (Hin : In courseId (map Db._id (Db.docs st))) by now apply in_map.
  rewrite (updateCourse_accepted courseId req st Hok), Hstr, Hres.
  unfold write_update. rewrite Hl, Hb.
  set (u := update_of req st lecture lab).
  destruct (update_first_replaced courseId u (Db.docs st) Hnd Hin)
    as [d [Hd [Hid Hup]]].
  assert (d = course) by now apply (unique_identity (Db.docs st)). subst d.
  unfold Db.findByIdAndUpdate. rewrite Hup.
  assert (Hcourse' : Db.apply_update u course = updatedCourse) by reflexivity.
  rewrite Hcourse'.
  assert (Hids : map Db._id (replaced courseId u (Db.docs st)) = map Db._id (Db.docs st)).
  { unfold replaced. rewrite map_map. apply map_ext. intro e.
    destruct (Db._id e =? courseId)%nat; reflexivity. }
  exists (Db.mkStore (replaced courseId u (Db.docs st)) (Db.next_id st)).
  split; [reflexivity | split; [exact Hids | split; [reflexivity | split]]].
  - simpl.
    assert (Hnd' : NoDup (map Db._id (replaced courseId u (Db.docs st))))
      by now rewrite Hids.
    replace courseId with (Db._id updatedCourse) at 1 by reflexivity.
    apply findById_unique; [exact Hnd'|].
    unfold replaced. apply in_map_iff. exists course. split; [|exact Hcourse].
    fold courseId. now rewrite Nat.eqb_refl.
  - intros e He. simpl. unfold replaced. rewrite in_map_iff. split.
    + intros [f [Hf Hinf]]. destruct (Db._id f =? courseId)%nat eqn:Ef.
      * subst e. simpl in He. apply Nat.eqb_eq in Ef. contradiction.
      * now subst f.
    + intro Hine. exists e. split; [|exact Hine].
      apply Nat.eqb_neq in He. now rewrite He.
Qed.

(** MA201 renamed, with the lecture hours "0b11" and the lab hours left out:
    the code, department, semester and lab hours stay, the lecture hours
    become 3. *)
Lemma updateCourse_replaces_fields_witness :
  wf_store catalog /\
  In ma201 (Db.docs catalog) /\
  exists st',
    updateCourse 2 rename_to_calculus_1 catalog =
      (mkResponse 200
         (MessageCourse "Course updated successfully"
            (Db.mkCourse 2 "MA201" "Calculus I" [0; 1] "Math" "Fall"
                         (Some 3%float) (Some 0%float))), st')
    /\ Db.docs st' =
         [cs101; cs102;
          Db.mkCourse 2 "MA201" "Calculus I" [0; 1] "Math" "Fall"
                      (Some 3%float) (Some 0%float)].
Proof.
  assert (Hin : In ma201 (Db.docs catalog)) by (simpl; auto).
  split; [exact wf_catalog | split; [exact Hin|]].
  destruct (updateCourse_replaces_fields rename_to_calculus_1 catalog ma201
              (Some (Some 3%float)) None wf_catalog Hin)
    as [st' [E _]]; try (vm_compute; reflexivity).
  exists st'.
  assert (E' := f_equal (fun a => Db.docs (snd a)) E). simpl in E'.
  split; [etransitivity; [exact E | vm_compute; reflexivity]|].
  rewrite <- E'. vm_compute. reflexivity.
Defined.

(** X10.  An update request without prerequisites (absent, empty or otherwise
    falsy) removes the prerequisites the course had: a 200 answer carries
    none. *)
Theorem updateCourse_clears_prerequisites
    (courseId : Db.ObjectId) (req : Upd.body) (st st' : Db.Store)
    (updatedCourse : Db.Course) :
  JS.ToBoolean (Upd.prerequisites req) = false ->
  updateCourse courseId req st =
    (mkResponse 200 (MessageCourse "Course updated successfully" updatedCourse), st') ->
  Db.prerequisites updatedCourse = [] /\
  Db.findById courseId (Db.docs st') = Some updatedCourse.
Proof.
  intros Hp H. destruct (update_hours_ok req) eqn:Hok;
    [|rewrite (updateCourse_rejected courseId req st Hok) in H; discriminate].
  destruct (requested_falsy update_codes _ Hp) as [Hreq Hstr].
  rewrite (updateCourse_accepted courseId req st Hok), Hstr, Hreq, unresolved_nil in H.
  destruct (write_update_200 _ _ _ _ _ H) as [lecture [lab [l [_ [_ [E ->]]]]]].
  split.
  - destruct (update_first_some _ _ _ _ _ E) as [[d [_ [Hid ->]]] _].
    simpl. rewrite Hreq. apply resolved_ids_nil.
  - simpl. now apply (update_first_findById _ _ _ _ _ E).
Qed.

Lemma updateCourse_clears_prerequisites_witness :
  Db.prerequisites cs102 = [0] /\
  exists updatedCourse st',
    updateCourse 1 (to_update (cs201 (JS.VString "1.5") (JS.VString "0.5") JS.VUndefined))
                 catalog =
      (mkResponse 200 (MessageCourse "Course updated successfully" updatedCourse), st') /\
    Db.prerequisites updatedCourse = [] /\
    Db.findById 1 (Db.docs st') = Some updatedCourse.
Proof.
  split; [reflexivity|]. eexists. eexists.
  assert (E : updateCourse 1 (to_update (cs201 (JS.VString "1.5") (JS.VString "0.5")
                                               JS.VUndefined)) catalog =
              (mkResponse 200
                 (MessageCourse "Course updated successfully"
                    (Db.mkCourse 1 "CS201" "Algorithms" [] "CS101-Dept" "Fall"
                                 (Some 1.5%float) (Some 0.5%float))),
               Db.mkStore [cs101;
                           Db.mkCourse 1 "CS201" "Algorithms" [] "CS101-Dept" "Fall"
                                       (Some 1.5%float) (Some 0.5%float);
                           ma201] 3))
    by (vm_compute; reflexivity).
  split; [exact E|].
  apply (updateCourse_clears_prerequisites 1
           (to_update (cs201 (JS.VString "1.5") (JS.VString "0.5") JS.VUndefined))
           catalog _ _ eq_refl E).
Defined.

Lemma split_single (sep : ascii) (s : string) :
  occurs sep s = false -> JS.split sep s = [s].
Proof.
  induction s as [|c s IH]; simpl; [reflexivity|].
  intro H. apply orb_false_iff in H. destruct H as [Hc Hs].
  rewrite Hc, (IH Hs). reflexivity.
Qed.

(** X11.  Nothing keeps a course from becoming its own prerequisite: an update
    that names the course's own code as the prerequisite is answered 200 and
    stores the course's own identity among its prerequisites. *)
Theorem updateCourse_self_prerequisite
    (req : Upd.body) (st : Db.Store) (c : Db.Course)
    (lecture lab : Db.change (option JS.number)) :
  wf_store st ->
  In c (Db.docs st) ->
  Db.code c <> "" ->
  occurs "," (Db.code c) = false ->
  Upd.prerequisites req = JS.VString (Db.code c) ->
  update_hours_ok req = true ->
  Db.cast_change (Upd.lectureCreditHours req) = Some lecture ->
  Db.cast_change (Upd.labCreditHours req) = Some lab ->
  exists updatedCourse st',
    updateCourse (Db._id c) req st =
      (mkResponse 200 (MessageCourse "Course updated successfully" updatedCourse), st')
    /\ Db._id updatedCourse = Db._id c
    /\ In (Db._id updatedCourse) (Db.prerequisites updatedCourse).
Proof.
  intros [Hnd _] Hc Hne Hcomma Hp Hok Hl Hb.
  assert (Hreq : requested update_codes (Upd.prerequisites req) = [Db.code c]).
  { rewrite Hp, (requested_string update_codes _ Hne).
    unfold update_codes. now apply split_single. }
  assert (Hhas : has_course st (Db.code c) = true)
    by (apply has_course_iff; now exists c).
  assert (Hres : unresolved st [Db.code c] = [])
    by (unfold unresolved; simpl; now rewrite Hhas).
  rewrite (updateCourse_accepted (Db._id c) req st Hok), Hreq, Hres.
  rewrite Hp. cbn [not_a_string]. unfold write_update. rewrite Hl, Hb.
  set (u := update_of req st lecture lab).
  assert (Hin : In (Db._id c) (map Db._id (Db.docs st))) by now apply in_map.
  destruct (update_first_replaced (Db._id c) u (Db.docs st) Hnd Hin)
    as [d [Hd [Hid Hup]]].
  unfold Db.findByIdAndUpdate. rewrite Hup.
  eexists. eexists. split; [reflexivity | split; [exact Hid|]].
  simpl. rewrite Hid, Hreq. unfold resolved_ids. apply in_map.
  apply resolved_In. simpl. auto.
Qed.

Lemma updateCourse_self_prerequisite_witness :
  wf_store catalog /\ In ma201 (Db.docs catalog) /\
  exists updatedCourse st',
    updateCourse 2 (to_update (cs201 (JS.VString "0x2") (JS.VString "1")
                                     (JS.VString "MA201"))) catalog =
      (mkResponse 200 (MessageCourse "Course updated successfully" updatedCourse), st')
    /\ Db._id updatedCourse = 2
    /\ In (Db._id updatedCourse) (Db.prerequisites updatedCourse).
Proof.
  split; [exact wf_catalog | split; [simpl; auto|]].
  apply (updateCourse_self_prerequisite
           (to_update (cs201 (JS.VString "0x2") (JS.VString "1") (JS.VString "MA201")))
           catalog ma201 (Some (Some 2%float)) (Some (Some 1%float)) wf_catalog);
    try (vm_compute; reflexivity); try discriminate; simpl; auto.
Defined.

Lemma compares_true_number (x y : JS.number) :
  JS.lt x y = true \/ JS.gt x y = true -> JS.isNaN x = false.
Proof.
  intro H. destruct (JS.isNaN x) eqn:E; [|reflexivity].
  destruct (NaN_compares_false x y E) as [H1 H2]. destruct H; congruence.
Qed.

(** X12.  [updateCourse] answers 400 exactly when a credit-hour value is a number
    outside its interval, [1,3] for the lecture hours and [0,1] for the lab
    hours; a value that is not a number is never the reason for a 400.  With
    a 400 the collection is as it was. *)
Theorem updateCourse_invalid_input_iff
    (courseId : Db.ObjectId) (req : Upd.body) (st : Db.Store) :
  let lecture := JS.ToNumber (Upd.lectureCreditHours req) in
  let lab := JS.ToNumber (Upd.labCreditHours req) in
  (status (fst (updateCourse courseId req st)) = 400 <->
     (JS.isNaN lecture = false /\ within 1%float 3%float lecture = false) \/
     (JS.isNaN lab = false /\ within 0%float 1%float lab = false))
  /\ (status (fst (updateCourse courseId req st)) = 400 ->
      updateCourse courseId req st =
        (mkResponse 400 (Message "Invalid credit hours"), st)).
Proof.
  intros lecture lab.
  assert (W1 := within_false 1%float 3%float lecture eq_refl eq_refl).
  assert (W0 := within_false 0%float 1%float lab eq_refl eq_refl).
  assert (N1 := compares_true_number lecture 1%float).
  assert (N3 := compares_true_number lecture 3%float).
  assert (N0 := compares_true_number lab 0%float).
  assert (N2 := compares_true_number lab 1%float).
  assert (Hout : out_of_range lecture lab = true <->
            (JS.isNaN lecture = false /\ within 1%float 3%float lecture = false) \/
            (JS.isNaN lab = false /\ within 0%float 1%float lab = false)).
  { unfold out_of_range. rewrite !orb_true_iff, W1, W0.
    clearbody lecture lab. clear W1 W0.
    destruct (JS.isNaN lecture), (JS.isNaN lab); intuition congruence. }
  destruct (update_hours_ok req) eqn:Hok.
  - pose proof (updateCourse_accepted_not_400 courseId req st Hok) as Hst.
    unfold update_hours_ok in Hok. apply negb_true_iff in Hok. fold lecture lab in Hok.
    split.
    + split; [intro H; contradiction|]. intro H. apply Hout in H. congruence.
    + intro H. contradiction.
  - rewrite (updateCourse_rejected courseId req st Hok). simpl.
    unfold update_hours_ok in Hok. apply negb_false_iff in Hok. fold lecture lab in Hok.
    split; [|reflexivity]. split; [intros _; now apply Hout | reflexivity].
Qed.

(* ================================================================== *)
(** * Further properties of getAllCourses and searchCourse *)
(* ================================================================== *)

Lemma present_all (st : Db.Store) (ids : list Db.ObjectId) :
  (forall id, In id ids -> In id (map Db._id (Db.docs st))) -> present st ids = ids.
Proof.
  unfold present. induction ids as [|id ids IH]; simpl; intro H; [reflexivity|].
  assert (E : existsb (fun d => (Db._id d =? id)%nat) (Db.docs st) = true).
  { apply existsb_exists. specialize (H id (or_introl eq_refl)).
    apply in_map_iff in H. destruct H as [d [Hd Hin]].
    exists d. split; [assumption | now apply Nat.eqb_eq]. }
  rewrite E, IH; auto.
Qed.

Lemma present_In (st : Db.Store) (ids : list Db.ObjectId) (id : Db.ObjectId) :
  In id (present st ids) <-> In id ids /\ In id (map Db._id (Db.docs st)).
Proof.
  unfold present. rewrite filter_In, existsb_exists, in_map_iff.
  split; intros [Hid [d H]]; (split; [assumption|]); exists d.
  - destruct H as [Hd E]. apply Nat.eqb_eq in E. auto.
  - destruct H as [E Hd]. split; [assumption | now apply Nat.eqb_eq].
Qed.

(** X13.  [getAllCourses] answers 200 with one entry per course, in the order of
    the collection, and leaves the collection as it is, whatever the
    collection.  The expanded prerequisites of an entry are those of the
    stored identities that a course of the collection has, in the stored
    order, each with the code and name of a course of that identity; an
    identity that no course has any more is left out.  When the references
    of the collection are intact, they are all the stored ones. *)
Theorem getAllCourses_complete (st : Db.Store) :
  exists courses,
    getAllCourses st = (mkResponse 200 (Courses courses), st)
    /\ map Db.p_id courses = map Db._id (Db.docs st)
    /\ map Db.p_code courses = map Db.code (Db.docs st)
    /\ map (fun pc => map Db.ref_id (Db.p_prerequisites pc)) courses =
         map (fun c => present st (Db.prerequisites c)) (Db.docs st)
    /\ (forall c id, In c (Db.docs st) ->
          (In id (present st (Db.prerequisites c)) <->
           In id (Db.prerequisites c) /\ In id (map Db._id (Db.docs st))))
    /\ (forall pc r, In pc courses -> In r (Db.p_prerequisites pc) ->
          exists d, In d (Db.docs st) /\ Db._id d = Db.ref_id r /\
                    Db.code d = Db.ref_code r /\ Db.name d = Db.ref_name r)
    /\ (refs_ok st ->
          map (fun pc => map Db.ref_id (Db.p_prerequisites pc)) courses =
            map Db.prerequisites (Db.docs st)).
Proof.
  exists (map (Db.populate st) (Db.docs st)).
  assert (Hrefs : map (fun pc => map Db.ref_id (Db.p_prerequisites pc))
                      (map (Db.populate st) (Db.docs st)) =
                  map (fun c => present st (Db.prerequisites c)) (Db.docs st)).
  { rewrite map_map. apply map_ext. intro c. apply populate_present. }
  split; [reflexivity|]. rewrite Hrefs, !map_map. simpl.
  split; [reflexivity | split; [reflexivity | split; [reflexivity | split; [| split]]]].
  - intros c id _. apply present_In.
  - intros pc r Hpc Hr. apply in_map_iff in Hpc. destruct Hpc as [c [<- Hc]].
    apply populate_refs in Hr. destruct Hr as [d [Hd [_ ->]]].
    exists d. simpl. auto.
  - intro Hok. apply map_ext_in. intros c Hc. apply present_all.
    intros id Hid. now apply (Hok c).
Qed.

(** The catalog after CS101 is deleted: CS102 still holds its identity, and
    the listing leaves it out. *)
Lemma getAllCourses_complete_witness :
  exists courses,
    getAllCourses (snd (deleteCourse 0 catalog)) =
      (mkResponse 200 (Courses courses), snd (deleteCourse 0 catalog))
    /\ map Db.p_code courses = ["CS102"; "MA201"]
    /\ map Db.prerequisites (Db.docs (snd (deleteCourse 0 catalog))) = [[0]; []]
    /\ map (fun pc => map Db.ref_id (Db.p_prerequisites pc)) courses = [[]; []].
Proof.
  destruct (getAllCourses_complete (snd (deleteCourse 0 catalog)))
    as [courses [E [_ [Hcodes [Hrefs _]]]]].
  exists courses. split; [exact E | split; [exact Hcodes | split; [reflexivity|]]].
  rewrite Hrefs. vm_compute. reflexivity.
Defined.

Section FurtherSearch.

Variable regex_i : string -> option (string -> bool).

Lemma supplied_falsy (p : option string) : truthy p = false -> supplied p = None.
Proof.
  destruct p as [s|]; simpl; [|reflexivity]. now intros ->.
Qed.

Lemma range_falsy (min max : option string) :
  truthy min = false -> truthy max = false -> range min max = None.
Proof.
  unfold range. now intros -> ->.
Qed.

(** X14.  A search without parameters, or with empty ones only, is the listing:
    it answers as [getAllCourses] does, except on the empty collection,
    where it answers 404. *)
Theorem searchCourse_without_filters (q : Req.query) (st : Db.Store) :
  no_filter q ->
  (Db.docs st = [] ->
     searchCourse regex_i q st =
       (mkResponse 404 (Message "No courses found matching the criteria"), st))
  /\ (Db.docs st <> [] -> searchCourse regex_i q st = getAllCourses st).
Proof.
  intros (Hc & Hn & Hd & Hs & Hl1 & Hl2 & Hb1 & Hb2).
  assert (Hq : build_query q = Db.mkQuery None None None None None None).
  { unfold build_query.
    now rewrite !supplied_falsy, !range_falsy by assumption. }
  assert (E : searchCourse regex_i q st = (search_answer st (Db.docs st), st)).
  { rewrite (searchCourse_answer regex_i q st) by now rewrite Hq.
    rewrite Hq. f_equal. f_equal.
    induction (Db.docs st) as [|c l IH]; simpl; [reflexivity | now rewrite IH]. }
  rewrite E. split; intro H.
  - now rewrite H.
  - rewrite getAllCourses_lists. destruct (Db.docs st); [contradiction | reflexivity].
Qed.

(** ** Bounds with a fraction *)

Lemma take_digits_fst (radix : Z) (c : ascii) (s : string) :
  fst (JS.take_digits radix (String c s)) =
    match JS.digit_value radix c with
    | Some d => d :: fst (JS.take_digits radix s)
    | None => []
    end.
Proof.
  simpl. destruct (JS.digit_value radix c); [|reflexivity].
  now destruct (JS.take_digits radix s).
Qed.

Lemma take_digits_before_point (s : string) :
  decimal_digits (before_point s) = true ->
  fst (JS.take_digits 10 s) = fst (JS.take_digits 10 (before_point s)).
Proof.
  induction s as [|c s IH]; [reflexivity|].
  cbn [before_point]. destruct (Ascii.eqb c ".") eqn:E.
  - apply Ascii.eqb_eq in E. subst c. reflexivity.
  - cbn [decimal_digits]. intro H. apply andb_prop in H. destruct H as [_ Hs].
    rewrite !take_digits_fst, (IH Hs). reflexivity.
Qed.

(** [parseInt] of a string that starts with a digit not followed by [x]. *)
Lemma parseInt_leading_digit (c : ascii) (s : string) :
  is_decimal_digit c = true ->
  (forall c2 s2, s = String c2 s2 -> (Ascii.eqb c2 "x" || Ascii.eqb c2 "X")%bool = false) ->
  JS.parseInt (String c s) =
    match fst (JS.take_digits 10 (String c s)) with
    | [] => nan
    | ds => JS.round_binary false (JS.digits_value 10 ds) 0
    end.
Proof.
  intros Hc Hx. unfold JS.parseInt.
  assert (Hs1 : JS.scan_sign (JS.trimStart (String c s)) = (false, String c s)).
  { digit_cases c Hc; reflexivity. }
  rewrite Hs1.
  assert (Hradix : match String c s with
    | String "0" (String c0 s') =>
        if (Ascii.eqb c0 "x" || Ascii.eqb c0 "X")%bool then (16%Z, s') else (10%Z, String c s)
    | _ => (10%Z, String c s)
    end = (10%Z, String c s)).
  { destruct s as [|c2 s2]; [digit_cases c Hc; reflexivity|].
    specialize (Hx c2 s2 eq_refl).
    digit_cases c Hc; try reflexivity. now rewrite Hx. }
  now rewrite Hradix.
Qed.

Lemma decimal_digit_not_x (c : ascii) :
  is_decimal_digit c = true -> (Ascii.eqb c "x" || Ascii.eqb c "X")%bool = false.
Proof.
  intro Hc. digit_cases c Hc; reflexivity.
Qed.

(** [parseInt] stops at the point. *)
Lemma parseInt_before_point (s : string) :
  whole_number (before_point s) = true ->
  JS.parseInt s = JS.parseInt (before_point s).
Proof.
  unfold whole_number. intro H. apply andb_prop in H. destruct H as [Hne Hd].
  destruct s as [|c s]; [reflexivity|].
  cbn [before_point] in *. destruct (Ascii.eqb c ".") eqn:E; [discriminate|].
  pose proof Hd as Hd'. cbn [decimal_digits] in Hd'.
  apply andb_prop in Hd'. destruct Hd' as [Hc Hs].
  rewrite (parseInt_leading_digit c s Hc), (parseInt_leading_digit c (before_point s) Hc).
  - now rewrite !take_digits_fst, (take_digits_before_point s Hs).
  - intros c2 s2 H2. destruct s as [|c3 s3]; [discriminate|].
    cbn [before_point] in H2, Hs. destruct (Ascii.eqb c3 "."); [discriminate|].
    inversion H2; subst. cbn [decimal_digits] in Hs.
    apply andb_prop in Hs. now apply decimal_digit_not_x.
  - intros c2 s2 ->. cbn [before_point] in Hs.
    destruct (Ascii.eqb c2 ".") eqn:E2.
    + apply Ascii.eqb_eq in E2. subst c2. reflexivity.
    + cbn [decimal_digits] in Hs. apply andb_prop in Hs. now apply decimal_digit_not_x.
Qed.

Lemma bound_before_point (p : option string) :
  when_supplied (fun b => whole_number (before_point b) = true) p ->
  bound (option_map before_point p) = bound p /\
  truthy (option_map before_point p) = truthy p.
Proof.
  unfold when_supplied. destruct p as [s|]; [|simpl; auto].
  destruct s as [|c s]; [simpl; auto|].
  cbn [supplied JS.truthy option_map bound truthy]. intro H.
  pose proof H as H'. unfold whole_number in H'.
  apply andb_prop in H'. destruct H' as [Hne _]. rewrite Hne.
  now rewrite (parseInt_before_point _ H).
Qed.

(** X15.  [searchCourse] reads a bound up to its first point: a request whose
    bounds have a whole number before the point is answered as the request
    with the fractions cut off. *)
Theorem searchCourse_drops_fractions (q : Req.query) (st : Db.Store) :
  whole_part_bounds q ->
  searchCourse regex_i q st = searchCourse regex_i (drop_fractions q) st.
Proof.
  intros (H1 & H2 & H3 & H4).
  assert (Hq : build_query (drop_fractions q) = build_query q).
  { unfold build_query, drop_fractions, range. simpl.
    destruct (bound_before_point _ H1) as [-> ->].
    destruct (bound_before_point _ H2) as [-> ->].
    destruct (bound_before_point _ H3) as [-> ->].
    destruct (bound_before_point _ H4) as [-> ->]. reflexivity. }
  unfold searchCourse. now rewrite Hq.
Qed.

(** X16.  What a search returns is part of the listing: the answer holds entries
    of [getAllCourses]'s answer, in the same order, and the collection is as
    it was. *)
Theorem searchCourse_results_listed
    (q : Req.query) (st st' : Db.Store) (courses : list Db.PopulatedCourse) :
  searchCourse regex_i q st = (mkResponse 200 (Courses courses), st') ->
  st' = st /\
  exists all keep,
    getAllCourses st = (mkResponse 200 (Courses all), st) /\
    all = map (Db.populate st) (Db.docs st) /\
    courses = map (Db.populate st) (filter keep (Db.docs st)) /\
    incl courses all.
Proof.
  intro H. destruct (Db.query_ok regex_i (build_query q)) eqn:Hok;
    [|rewrite (searchCourse_refused regex_i q st Hok) in H; discriminate].
  rewrite (searchCourse_answer regex_i q st Hok) in H.
  destruct (filter (Db.matches regex_i (build_query q)) (Db.docs st)) as [|c l] eqn:Hf;
    [discriminate|].
  injection H as Hc Hst. split; [now symmetry|].
  exists (map (Db.populate st) (Db.docs st)), (Db.matches regex_i (build_query q)).
  split; [reflexivity | split; [reflexivity | split]].
  - rewrite Hf. now symmetry.
  - intros pc Hpc. rewrite <- Hc in Hpc.
    change (In pc (map (Db.populate st) (c :: l))) in Hpc. rewrite <- Hf in Hpc.
    apply in_map_iff in Hpc. destruct Hpc as [d [<- Hd]].
    apply in_map. now apply filter_In in Hd.
Qed.

End FurtherSearch.

Lemma searchCourse_without_filters_witness :
  no_filter (Req.mkQuery (Some "") None None (Some "") None (Some "") None None) /\
  searchCourse substring_engine
    (Req.mkQuery (Some "") None None (Some "") None (Some "") None None) catalog =
    getAllCourses catalog.
Proof.
  assert (H : no_filter (Req.mkQuery (Some "") None None (Some "") None (Some "") None None))
    by (repeat split).
  split; [exact H|].
  apply (searchCourse_without_filters substring_engine _ catalog H). discriminate.
Defined.

Lemma searchCourse_drops_fractions_witness :
  whole_part_bounds (lecture_between (Some "1.5") (Some "2.75")) /\
  searchCourse substring_engine (lecture_between (Some "1.5") (Some "2.75")) catalog =
    searchCourse substring_engine (lecture_between (Some "1") (Some "2")) catalog.
Proof.
  assert (H : whole_part_bounds (lecture_between (Some "1.5") (Some "2.75")))
    by (repeat split).
  split; [exact H|].
  apply (searchCourse_drops_fractions substring_engine _ catalog H).
Defined.

Lemma searchCourse_results_listed_witness :
  exists courses,
    searchCourse substring_engine (lecture_between (Some "2") None) catalog =
      (mkResponse 200 (Courses courses), catalog) /\
    incl courses (map (Db.populate catalog) (Db.docs catalog)).
Proof.
  assert (E : searchCourse substring_engine (lecture_between (Some "2") None) catalog =
              (mkResponse 200 (Courses [Db.populate catalog cs101]), catalog))
    by (vm_compute; reflexivity).
  exists [Db.populate catalog cs101]. split; [exact E|].
  destruct (searchCourse_results_listed substring_engine _ catalog _ _ E)
    as [_ [all [keep [_ [-> [_ Hincl]]]]]].
  exact Hincl.
Defined.

(* ================================================================== *)
(** * Every reachable collection *)
(* ================================================================== *)

Lemma refs_assigned_addCourse (req : Req.body) (st : Db.Store) :
  wf_store st -> refs_assigned st -> refs_assigned (snd (addCourse req st)).
Proof.
  intros [_ Hlt] Hrefs.
  destruct (addCourse_store_cases req st) as [-> | ->]; [assumption|].
  intros d id Hd Hin. simpl in *.
  apply in_app_or in Hd. destruct Hd as [Hd | [<- | []]].
  - specialize (Hrefs d id Hd Hin). lia.
  - simpl in Hin. apply resolved_ids_present in Hin. apply in_map_iff in Hin.
    destruct Hin as [e [<- He]]. rewrite Forall_forall in Hlt.
    specialize (Hlt e He). lia.
Qed.

Lemma refs_assigned_updateCourse (courseId : Db.ObjectId) (req : Upd.body) (st : Db.Store) :
  wf_store st -> refs_assigned st -> refs_assigned (snd (updateCourse courseId req st)).
Proof.
  intros [_ Hlt] Hrefs.
  destruct (updateCourse_store_cases courseId req st)
    as [-> | [u [c [l [Hu [E ->]]]]]]; [assumption|].
  intros d id Hd Hin. simpl in *.
  destruct (update_first_some _ _ _ _ _ E) as [[e [_ [_ Hc]]] _].
  destruct (update_first_In _ _ _ _ _ d E Hd) as [Hold | ->].
  - now apply (Hrefs d).
  - subst c. simpl in Hin. rewrite Hu in Hin.
    apply resolved_ids_present in Hin. apply in_map_iff in Hin.
    destruct Hin as [f [<- Hf]]. rewrite Forall_forall in Hlt. now apply Hlt.
Qed.

Lemma refs_assigned_deleteCourse (courseId : Db.ObjectId) (st : Db.Store) :
  refs_assigned st -> refs_assigned (snd (deleteCourse courseId st)).
Proof.
  intro Hrefs. unfold deleteCourse, Db.findByIdAndDelete.
  destruct (Db.delete_first courseId (Db.docs st)) as [[c l]|] eqn:E; [|assumption].
  simpl. intros d id Hd Hin. simpl in *. apply (Hrefs d); [|assumption].
  clear Hin. revert l E Hd.
  induction (Db.docs st) as [|e docs IH]; simpl; intros l E Hd; [discriminate|].
  destruct (Db._id e =? courseId)%nat.
  - inversion E; subst. auto.
  - destruct (Db.delete_first courseId docs) as [[c' l']|]; [|discriminate].
    inversion E; subst. destruct Hd as [<- | Hd]; [auto|].
    right. now apply (IH l').
Qed.

Lemma handle_keeps_invariant (regex_i : string -> option (string -> bool))
    (r : request) (st : Db.Store) :
  wf_store st /\ refs_assigned st ->
  wf_store (snd (handle regex_i r st)) /\ refs_assigned (snd (handle regex_i r st)).
Proof.
  intros [Hwf Hrefs]. destruct r as [b | id b | id | | q]; simpl.
  - split; [now apply wf_addCourse | now apply refs_assigned_addCourse].
  - split; [now apply wf_updateCourse | now apply refs_assigned_updateCourse].
  - split; [now apply wf_deleteCourse | now apply refs_assigned_deleteCourse].
  - auto.
  - unfold searchCourse. destruct (Db.find regex_i (build_query q) st) as [found|];
      [destruct (length (map (Db.populate st) found) =? 0)%nat|]; auto.
Qed.

(** X17.  Whatever requests are handled, in whatever order, starting from the
    empty collection: no two courses share an identity, every identity was
    assigned by the store, and every stored prerequisite is an identity the
    store assigned, never one of its own making. *)
Theorem run_keeps_invariant (regex_i : string -> option (string -> bool))
    (rs : list request) :
  wf_store (run regex_i rs emptyStore) /\ refs_assigned (run regex_i rs emptyStore).
Proof.
  assert (H : forall st, wf_store st /\ refs_assigned st ->
                wf_store (run regex_i rs st) /\ refs_assigned (run regex_i rs st)).
  { unfold run. induction rs as [|r rs IH]; simpl; intros st Hst; [exact Hst|].
    apply IH. now apply handle_keeps_invariant. }
  apply H. split; [exact wf_emptyStore|].
  intros c id Hc. contradiction.
Qed.
